(** * ChromoRetriever: the NCBI chromosome table exporter

    A shallow embedding of [ncbi_chromosome_exporter.py] and the proofs of
    the properties its specification states about record classification,
    field mapping, column projection, chromosome ordering and pagination.

    Modelling conventions.
    - A decoded JSON value is a [pyval]; a Python [dict] is an association
      list in insertion order, looked up by first match (a [dict] has each
      key once).
    - A Python [str] is a [string]; the string operations ([upper], [int],
      the regular expression) are the ASCII ones, which is what Python
      computes on text whose code points are below 128.
    - A Python [int] is a [Z]; [int(...)] is the unbounded conversion.
    - A Python [float] is a binary64 [spec_float].
    - Code that can raise returns a [pyres]: [Ok v] or [Raise e].
    - [requests.get] is scripted: the network is the list of the outcomes of
      the successive requests. *)

From Stdlib Require Import ZArith List String Ascii Bool Lia Permutation Sorted.
From Stdlib Require Import Floats.SpecFloat.
Import ListNotations.
Open Scope string_scope.
Open Scope Z_scope.
Set Warnings "-register-all".

(** ** Exceptions and results *)

Inductive exn : Type :=
| KeyError
| IndexError
| TypeError
| AttributeError
| ValueError.

Inductive pyres (A : Type) : Type :=
| Ok (a : A)
| Raise (e : exn).
Arguments Ok {A} a.
Arguments Raise {A} e.

Definition bind {A B : Type} (m : pyres A) (f : A -> pyres B) : pyres B :=
  match m with
  | Ok a => f a
  | Raise e => Raise e
  end.

Notation "x <- m ;; k" := (bind m (fun x => k))
  (at level 61, m at next level, right associativity).

Definition res_map {A B : Type} (f : A -> B) (m : pyres A) : pyres B :=
  match m with
  | Ok a => Ok (f a)
  | Raise e => Raise e
  end.

(** ** Values decoded from JSON *)

Inductive pyval : Type :=
| PNone
| PBool (b : bool)
| PInt (n : Z)
| PFloat (f : spec_float)
| PStr (s : string)
| PList (l : list pyval)
| PDict (d : list (string * pyval)).

Definition dict : Type := list (string * pyval).

(** [d.get(k)] as an option, and [d.get(k, default)]. *)
Fixpoint dict_lookup (k : string) (d : dict) : option pyval :=
  match d with
  | [] => None
  | (k', v) :: t => if String.eqb k' k then Some v else dict_lookup k t
  end.

Definition dict_get (d : dict) (k : string) (default : pyval) : pyval :=
  match dict_lookup k d with
  | Some v => v
  | None => default
  end.

(** [d[k]]. *)
Definition dict_index (d : dict) (k : string) : pyres pyval :=
  match dict_lookup k d with
  | Some v => Ok v
  | None => Raise KeyError
  end.

(** [v == s] for a string literal [s]. *)
Definition py_eq_str (v : pyval) (s : string) : bool :=
  match v with
  | PStr t => String.eqb t s
  | _ => false
  end.

Definition float_is_zero (f : spec_float) : bool :=
  match f with
  | S754_zero _ => true
  | _ => false
  end.

(** [bool(v)]. *)
Definition truthy (v : pyval) : bool :=
  match v with
  | PNone => false
  | PBool b => b
  | PInt n => negb (n =? 0)
  | PFloat f => negb (float_is_zero f)
  | PStr s => negb (String.eqb s "")
  | PList l => match l with [] => false | _ => true end
  | PDict d => match d with [] => false | _ => true end
  end.

(** ** [round(x, 1)] *)

(** The integer nearest to [10 * m * 2^e], ties to even. *)
Definition round_tenths (m : positive) (e : Z) : Z :=
  match e with
  | Zneg p =>
      let den := Z.pow_pos 2 p in
      let num := 10 * Zpos m in
      let q := num / den in
      let r := num mod den in
      match 2 * r ?= den with
      | Lt => q
      | Gt => q + 1
      | Eq => if Z.even q then q else q + 1
      end
  | _ => 10 * Zpos m * 2 ^ e
  end.

(** [float.__round__] with one digit: the binary64 nearest to the decimal
    obtained by rounding the exact value to one place, ties to even. *)
Definition float_round1 (f : spec_float) : spec_float :=
  match f with
  | S754_finite s m e =>
      match round_tenths m e with
      | Zpos t => SFdiv 53 1024 (S754_finite s t 0) (S754_finite false 10 0)
      | _ => S754_zero s
      end
  | _ => f
  end.

(** [round(v, 1)]: an [int] (and a [bool], as an [int]) is returned as an
    [int]; any other non-float has no [__round__]. *)
Definition py_round1 (v : pyval) : pyres pyval :=
  match v with
  | PInt n => Ok (PInt n)
  | PBool b => Ok (PInt (if b then 1 else 0))
  | PFloat f => Ok (PFloat (float_round1 f))
  | _ => Raise TypeError
  end.

(** ** String operations used on chromosome labels *)

(** [s.replace(old, new)] for a non-empty [old]: occurrences are replaced
    left to right and never overlap; [skip] counts the characters of the
    current occurrence still to be dropped. *)
Fixpoint replace_go (old new : string) (skip : nat) (s : string) : string :=
  match s with
  | EmptyString => EmptyString
  | String c t =>
      match skip with
      | S k => replace_go old new k t
      | O =>
          if String.prefix old s
          then new ++ replace_go old new (Nat.pred (String.length old)) t
          else String c (replace_go old new O t)
      end
  end.

Definition str_replace (old new s : string) : string :=
  replace_go old new O s.

Definition is_lower (c : ascii) : bool :=
  (N.leb 97 (N_of_ascii c) && N.leb (N_of_ascii c) 122)%bool.

Definition is_upper (c : ascii) : bool :=
  (N.leb 65 (N_of_ascii c) && N.leb (N_of_ascii c) 90)%bool.

Definition is_digit (c : ascii) : bool :=
  (N.leb 48 (N_of_ascii c) && N.leb (N_of_ascii c) 57)%bool.

(** The whitespace [int] skips around a number: tab, newline, vertical tab,
    form feed, carriage return and space. *)
Definition is_space (c : ascii) : bool :=
  ((N.leb 9 (N_of_ascii c) && N.leb (N_of_ascii c) 13)
   || N.eqb (N_of_ascii c) 32)%bool.

Definition upper_char (c : ascii) : ascii :=
  if is_lower c then ascii_of_N (N_of_ascii c - 32) else c.

(** [s.upper()]. *)
Fixpoint str_upper (s : string) : string :=
  match s with
  | EmptyString => EmptyString
  | String c t => String (upper_char c) (str_upper t)
  end.

Fixpoint lstrip (s : string) : string :=
  match s with
  | EmptyString => EmptyString
  | String c t => if is_space c then lstrip t else s
  end.

Fixpoint rstrip (s : string) : string :=
  match s with
  | EmptyString => EmptyString
  | String c t =>
      let t' := rstrip t in
      if (is_space c && String.eqb t' "")%bool then EmptyString
      else String c t'
  end.

Definition digit_val (c : ascii) : Z := Z.of_N (N_of_ascii c) - 48.

(** The digits of a decimal literal, where single underscores may separate
    digits; [prev] tells whether the previous character was a digit. *)
Fixpoint parse_digits (acc : Z) (prev : bool) (s : string) : option Z :=
  match s with
  | EmptyString => if prev then Some acc else None
  | String c t =>
      if is_digit c then parse_digits (10 * acc + digit_val c) true t
      else if (Ascii.eqb c "_" && prev)%bool then parse_digits acc false t
      else None
  end.

(** [int(s)]; [None] is [ValueError]. *)
Definition py_int (s : string) : option Z :=
  match rstrip (lstrip s) with
  | String "+" t => parse_digits 0 false t
  | String "-" t => option_map Z.opp (parse_digits 0 false t)
  | t => parse_digits 0 false t
  end.

(** The longest prefix of characters satisfying [p], and the rest. *)
Fixpoint span (p : ascii -> bool) (s : string) : string * string :=
  match s with
  | EmptyString => (EmptyString, EmptyString)
  | String c t =>
      if p c then let '(a, b) := span p t in (String c a, b)
      else (EmptyString, s)
  end.

Definition newline : string := String (ascii_of_N 10) EmptyString.

(** [re.match(r'^([A-Z]+)(\d+)$', s)], giving the two groups; [$] also
    matches just before a final newline. *)
Definition re_prefix_num (s : string) : option (string * string) :=
  let '(letters, rest) := span is_upper s in
  let '(digits, tail) := span is_digit rest in
  if (negb (String.eqb letters "") && negb (String.eqb digits "")
      && (String.eqb tail "" || String.eqb tail newline))%bool
  then Some (letters, digits)
  else None.

(** ** The sort key of a row *)

(** The components of a key tuple are integers and strings. *)
Inductive pyatom : Type :=
| AInt (n : Z)
| AStr (s : string).

Definition key : Type := (pyatom * pyatom * pyatom)%type.

Definition special : list (string * Z) :=
  [("X", 1000); ("Y", 1001); ("MT", 1002); ("M", 1002); ("MITO", 1002);
   ("MITOCHONDRION", 1002)].

Fixpoint special_lookup (k : string) (l : list (string * Z)) : option Z :=
  match l with
  | [] => None
  | (k', v) :: t => if String.eqb k' k then Some v else special_lookup k t
  end.

(** [label.replace("chr", "").replace("Chr", "").upper()]. *)
Definition normalize (label : string) : string :=
  str_upper (str_replace "Chr" "" (str_replace "chr" "" label)).

(** The body of [sort_key] after the normalization. *)
Definition label_key (chr_name : string) : pyres key :=
  match special_lookup chr_name special with
  | Some rank => Ok (AInt 0, AInt rank, AStr "")
  | None =>
      match py_int chr_name with
      | Some n => Ok (AInt 0, AInt n, AStr "")
      | None =>
          match re_prefix_num chr_name with
          | Some (prefix, num) =>
              match py_int num with
              | Some n => Ok (AInt 1, AStr prefix, AInt n)
              | None => Raise ValueError
              end
          | None => Ok (AInt 2, AStr chr_name, AInt 0)
          end
      end
  end.

(** [sort_key(item)]: [item['Chromosome']] raises [KeyError] when the column
    is absent, and only a [str] has [replace]. *)
Definition sort_key (item : dict) : pyres key :=
  v <- dict_index item "Chromosome" ;;
  match v with
  | PStr label => label_key (normalize label)
  | _ => Raise AttributeError
  end.

(** ** Comparing keys: the tuple comparison of Python *)

Definition atom_eqb (a b : pyatom) : bool :=
  match a, b with
  | AInt x, AInt y => x =? y
  | AStr s, AStr t => String.eqb s t
  | _, _ => false
  end.

(** [a < b]: an [int] and a [str] are not ordered. *)
Definition atom_lt (a b : pyatom) : pyres bool :=
  match a, b with
  | AInt x, AInt y => Ok (x <? y)
  | AStr s, AStr t => Ok (String.ltb s t)
  | _, _ => Raise TypeError
  end.

(** [k1 < k2] on triples: the first components that differ decide. *)
Definition tuple_lt (k1 k2 : key) : pyres bool :=
  let '(a1, b1, c1) := k1 in
  let '(a2, b2, c2) := k2 in
  if negb (atom_eqb a1 a2) then atom_lt a1 a2
  else if negb (atom_eqb b1 b2) then atom_lt b1 b2
  else if negb (atom_eqb c1 c2) then atom_lt c1 c2
  else Ok false.


(** ** [list.sort(key=...)]

    [list.sort] is stable, and the keys are compared with [<] only. The
    model inserts the elements from left to right, each after the elements
    that are not greater, as the binary insertion of CPython does; on keys
    that are totally ordered every stable sort returns this same list. *)

Section Sort.
Context {A : Type}.
Variable keyf : A -> pyres key.

(** The keys are computed first, one per element, in order. *)
Fixpoint decorate (l : list A) : pyres (list (key * A)) :=
  match l with
  | [] => Ok []
  | x :: t =>
      k <- keyf x ;;
      r <- decorate t ;;
      Ok ((k, x) :: r)
  end.

(** [x] goes before the first element whose key is greater than its own,
    hence after the elements with an equal key. *)
Fixpoint insert_sorted (x : key * A) (l : list (key * A))
  : pyres (list (key * A)) :=
  match l with
  | [] => Ok [x]
  | y :: t =>
      b <- tuple_lt (fst x) (fst y) ;;
      if b then Ok (x :: y :: t)
      else r <- insert_sorted x t ;; Ok (y :: r)
  end.

(** The elements are inserted from left to right into the sorted prefix
    [acc]. *)
Fixpoint sort_into (acc l : list (key * A)) : pyres (list (key * A)) :=
  match l with
  | [] => Ok acc
  | x :: t => acc' <- insert_sorted x acc ;; sort_into acc' t
  end.

Definition list_sort (l : list A) : pyres (list A) :=
  kl <- decorate l ;;
  s <- sort_into [] kl ;;
  Ok (map snd s).
End Sort.

(** ** Classification and mapping of the raw records *)

Definition exclude_active (exclude_columns : option (list string)) : bool :=
  match exclude_columns with
  | Some (_ :: _) => true
  | _ => false
  end.

Definition excluded (exclude_columns : option (list string)) (k : string)
  : bool :=
  match exclude_columns with
  | Some l => existsb (String.eqb k) l
  | None => false
  end.

(** The dict comprehension that drops the excluded columns. *)
Definition project (exclude_columns : option (list string)) (row : dict)
  : dict :=
  if exclude_active exclude_columns
  then filter (fun kv => negb (excluded exclude_columns (fst kv))) row
  else row.

Section Mapping.
Variable genome_id : string.
Variable organism_name : pyval.
Variable include_unplaced : bool.
Variable exclude_columns : option (list string).

(** The label of a record: [seq.get('chr_name',
    seq.get('assigned_molecule', 'N/A'))]. *)
Definition resolve_label (seq : dict) : pyval :=
  dict_get seq "chr_name" (dict_get seq "assigned_molecule" (PStr "N/A")).

(** The two guards of the loop body: [true] when the record is kept. *)
Definition keeps (seq : dict) : bool :=
  let is_chromosome :=
    py_eq_str (dict_get seq "assigned_molecule_location_type" (PStr ""))
              "Chromosome" in
  let is_assembled :=
    py_eq_str (dict_get seq "role" (PStr "")) "assembled-molecule" in
  if (negb is_chromosome && negb (include_unplaced && is_assembled))%bool
  then false
  else if (negb include_unplaced && py_eq_str (resolve_label seq) "Un")%bool
  then false
  else true.

(** The GC field: [round(seq.get('gc_percent', 0), 1) if
    seq.get('gc_percent') else None]. *)
Definition gc_field (seq : dict) : pyres pyval :=
  if truthy (dict_get seq "gc_percent" PNone)
  then py_round1 (dict_get seq "gc_percent" (PInt 0))
  else Ok PNone.

(** The row built from a kept record, before projection. *)
Definition build_row (seq : dict) : pyres dict :=
  gc <- gc_field seq ;;
  Ok [("GenomeID", PStr genome_id);
      ("Taxon", organism_name);
      ("Chromosome", resolve_label seq);
      ("GenBank", dict_get seq "genbank_accession" (PStr "N/A"));
      ("RefSeq", dict_get seq "refseq_accession" (PStr "n/a"));
      ("Size (bp)", dict_get seq "length" (PInt 0));
      ("GC content (%)", gc)].

(** One iteration of the loop: [None] is [continue]; a record that is not
    a [dict] has no [get]. *)
Definition map_record (seq : pyval) : pyres (option dict) :=
  match seq with
  | PDict d =>
      if keeps d
      then row <- build_row d ;; Ok (Some (project exclude_columns row))
      else Ok None
  | _ => Raise AttributeError
  end.

(** The loop over [reports], appending to [table_data]. *)
Fixpoint map_records (reports : list pyval) (table_data : list dict)
  : pyres (list dict) :=
  match reports with
  | [] => Ok table_data
  | seq :: rest =>
      r <- map_record seq ;;
      match r with
      | Some row => map_records rest (table_data ++ [row])
      | None => map_records rest table_data
      end
  end.

(** The exceptions of the [except (KeyError, IndexError, TypeError)]
    clause. *)
Definition caught (e : exn) : bool :=
  match e with
  | KeyError | IndexError | TypeError => true
  | _ => false
  end.

(** The second [try] block of [fetch_chromosome_table] and its handler:
    mapping, sorting, and the empty table on a caught exception. *)
Definition classify_and_map (reports : list pyval)
  : pyres (list dict * pyval) :=
  match (table_data <- map_records reports [] ;;
         list_sort sort_key table_data) with
  | Ok table_data => Ok (table_data, organism_name)
  | Raise e =>
      if caught e then Ok ([], organism_name) else Raise e
  end.
End Mapping.

(** ** The scripted network and the paginated fetch *)

(** The outcome of one [requests.get(...)] followed by [raise_for_status()]
    and [json()]: a [RequestException] (connection failure, timeout, HTTP
    error status, undecodable body) or the decoded body. *)
Inductive response : Type :=
| RequestFailed
| Body (data : pyval).

(** A script lists the outcomes of the successive requests. The page token
    is only sent as a query parameter: it selects the page the server
    answers with, which the script fixes. *)
Definition script : Type := list response.

(** The elements [list.extend] takes from its argument. *)
Definition py_iter (v : pyval) : pyres (list pyval) :=
  match v with
  | PList l => Ok l
  | PStr s => Ok (map (fun c => PStr (String c EmptyString))
                      (list_ascii_of_string s))
  | PDict d => Ok (map (fun kv => PStr (fst kv)) d)
  | _ => Raise TypeError
  end.

(** [v.get(k, default)] on a value that may fail to be a [dict]. *)
Definition val_get (v : pyval) (k : string) (default : pyval) : pyres pyval :=
  match v with
  | PDict d => Ok (dict_get d k default)
  | _ => Raise AttributeError
  end.

(** What one iteration reads from a decoded body: the new [reports] and the
    next page token. *)
Definition read_page (data : pyval) (reports : list pyval)
  : pyres (list pyval * pyval) :=
  page <- val_get data "reports" (PList []) ;;
  items <- py_iter page ;;
  token <- val_get data "next_page_token" PNone ;;
  Ok ((reports ++ items)%list, token).

(** The [while True] loop of [fetch_all_sequence_reports], entered with the
    [reports] accumulated so far. The outer [option] is [None] when the
    script ends while the loop still asks for a page. *)
Fixpoint fetch_pages (net : script) (reports : list pyval)
  : option (pyres (list pyval)) :=
  match net with
  | [] => None
  | RequestFailed :: _ => Some (Ok reports)
  | Body data :: net' =>
      match read_page data reports with
      | Raise e => Some (Raise e)
      | Ok (reports', page_token) =>
          if truthy page_token then fetch_pages net' reports'
          else Some (Ok reports')
      end
  end.

Definition fetch_all_sequence_reports (net : script)
  : option (pyres (list pyval)) :=
  fetch_pages net [].

(** The organism name read from the dataset report; every exception of the
    lookup leaves the name at ["Unknown"]. *)
Definition organism_of (dataset : response) : pyval :=
  match dataset with
  | Body (PDict d) =>
      match dict_get d "reports" PNone with
      | PList (PDict first :: _) =>
          match dict_get first "organism" (PDict []) with
          | PDict organism_info =>
              dict_get organism_info "organism_name" (PStr "Unknown")
          | _ => PStr "Unknown"
          end
      | _ => PStr "Unknown"
      end
  | _ => PStr "Unknown"
  end.

(** [fetch_chromosome_table], on the scripted outcomes of the sequence
    report requests and of the dataset report request. *)
Definition fetch_chromosome_table (genome_id : string)
  (include_unplaced : bool) (exclude_columns : option (list string))
  (net : script) (dataset : response)
  : option (pyres (list dict * pyval)) :=
  match fetch_all_sequence_reports net with
  | None => None
  | Some (Raise _) => Some (Ok ([], PStr "Unknown"))
  | Some (Ok []) => Some (Ok ([], PStr "Unknown"))
  | Some (Ok reports) =>
      Some (classify_and_map genome_id (organism_of dataset)
              include_unplaced exclude_columns reports)
  end.

(** The header [export_to_csv] writes: the keys of the first row. *)
Definition csv_header (table_data : list dict) : list string :=
  match table_data with
  | [] => []
  | row :: _ => map fst row
  end.

(** The normalization as the specification words it: a leading ["chr"] or
    ["Chr"] is stripped, then the remainder is uppercased. *)
Definition strip_leading_chr (label : string) : string :=
  if (String.prefix "chr" label || String.prefix "Chr" label)%bool
  then String.substring 3 (String.length label - 3) label
  else label.

Definition normalize_spec (label : string) : string :=
  str_upper (strip_leading_chr label).

(** The three shapes of the tuples [sort_key] returns. *)
Definition key_shape (k : key) : Prop :=
  (exists n, k = (AInt 0, AInt n, AStr ""))
  \/ (exists p n, k = (AInt 1, AStr p, AInt n))
  \/ (exists s, k = (AInt 2, AStr s, AInt 0)).

(** [k1 < k2], read as [false] where the comparison raises. *)
Definition key_lt (k1 k2 : key) : bool :=
  match tuple_lt k1 k2 with
  | Ok b => b
  | Raise _ => false
  end.

(** [k1 <= k2] as the sort sees it: [k2] is not below [k1]. *)
Definition key_le (k1 k2 : key) : Prop := key_lt k2 k1 = false.

(** Every character of [s] satisfies [p]. *)
Fixpoint str_all (p : ascii -> bool) (s : string) : bool :=
  match s with
  | EmptyString => true
  | String c t => (p c && str_all p t)%bool
  end.


(** What a page contributes, and the token it carries. *)
Definition page_items (d : dict) : pyres (list pyval) :=
  py_iter (dict_get d "reports" (PList [])).

Definition page_token (d : dict) : pyval :=
  dict_get d "next_page_token" PNone.

(** A page that carries its items and a token to continue with. *)
Definition continued_page (d : dict) (items : list pyval) : Prop :=
  page_items d = Ok items /\ truthy (page_token d) = true.

Definition body (d : dict) : response := Body (PDict d).



Definition is_dict (v : pyval) : bool :=
  match v with
  | PDict _ => true
  | _ => false
  end.

(** ** Predicates on the decorated lists of the sort *)

Section SortPredicates.
Context {A : Type}.
Variable keyf : A -> pyres key.

(** Each element is paired with its own key. *)
Definition decorated (l : list (key * A)) : Prop :=
  Forall (fun p => keyf (snd p) = Ok (fst p)) l.

Definition shaped (l : list (key * A)) : Prop :=
  Forall (fun p => key_shape (fst p)) l.

Definition entry_le (p q : key * A) : Prop := key_le (fst p) (fst q).

Definition sorted (l : list (key * A)) : Prop := StronglySorted entry_le l.


End SortPredicates.


(** ** The rows of the table *)

(** The columns of a row before projection, in order. *)
Definition schema : list string :=
  ["GenomeID"; "Taxon"; "Chromosome"; "GenBank"; "RefSeq"; "Size (bp)";
   "GC content (%)"].

(** The columns that an exclusion list leaves. *)
Definition projected_schema (exclude_columns : option (list string))
  : list string :=
  filter (fun k => negb (excluded exclude_columns k)) schema.

(** The rows the loop appends for a list of records that it maps without
    raising: one per kept record, in order. *)
Definition kept_rows (genome_id : string) (organism_name : pyval)
  (include_unplaced : bool) (exclude_columns : option (list string))
  (reports : list pyval) : list dict :=
  flat_map
    (fun seq =>
       match map_record genome_id organism_name include_unplaced
               exclude_columns seq with
       | Ok (Some row) => [row]
       | _ => []
       end)
    reports.


(** [row2] is not below [row1] in the order of the sort. *)
Definition row_le (row1 row2 : dict) : Prop :=
  exists k1 k2,
    sort_key row1 = Ok k1 /\ sort_key row2 = Ok k2
    /\ tuple_lt k2 k1 = Ok false.

(** [row[k] = v], replacing the value of a key that is there. *)
Fixpoint dict_set (k : string) (v : pyval) (d : dict) : dict :=
  match d with
  | [] => []
  | (k', v') :: t =>
      if String.eqb k' k then (k', v) :: t else (k', v') :: dict_set k v t
  end.

(** A body from which an iteration of the fetch loop cannot read a page:
    it is not an object, or its ["reports"] cannot be iterated. *)
Definition malformed_page (data : pyval) : bool :=
  match data with
  | PDict d =>
      match page_items d with
      | Ok _ => false
      | Raise _ => true
      end
  | _ => true
  end.

(** ** The table writer *)

(** A record of the output file: the cells of one line, which [csv.writer]
    turns into text. *)
Definition csv_record : Type := list pyval.

(** An output file: [None] when it does not exist, else its records in
    order; the file has no bytes exactly when it has no records. *)
Definition file : Type := option (list csv_record).

(** The files by path. *)
Definition filesystem : Type := string -> file.

Definition fs_write (fs : filesystem) (path : string) (f : file)
  : filesystem :=
  fun p => if String.eqb p path then f else fs p.

(** [DictWriter._dict_to_list]: a key that is not a field name is an error,
    a field name that is not a key gives the empty string. *)
Definition dict_to_list (fieldnames : list string) (rowdict : dict)
  : pyres csv_record :=
  if forallb (fun k => existsb (String.eqb k) fieldnames) (map fst rowdict)
  then Ok (map (fun k => dict_get rowdict k (PStr "")) fieldnames)
  else Raise ValueError.

(** [DictWriter.writerows]: the rows are converted and written one by one;
    what is written before a row fails stays in the file. *)
Fixpoint writerows (fieldnames : list string) (rows : list dict)
  (content : list csv_record) : list csv_record * pyres unit :=
  match rows with
  | [] => (content, Ok tt)
  | row :: rest =>
      match dict_to_list fieldnames row with
      | Ok r => writerows fieldnames rest (content ++ [r])%list
      | Raise e => (content, Raise e)
      end
  end.

(** [export_to_csv]: nothing for an empty table; else the file is opened
    for appending (and created when missing), the header is written when
    the file is empty, then the rows. *)
Definition export_to_csv (genome_id : string) (organism_name : pyval)
  (table_data : list dict) (output_file : string) (fs : filesystem)
  : filesystem * pyres unit :=
  match table_data with
  | [] => (fs, Ok tt)
  | first :: _ =>
      let headers := map fst first in
      let content :=
        match fs output_file with
        | Some (r :: c) => r :: c
        | _ => [map PStr headers]
        end in
      let '(content', result) := writerows headers table_data content in
      (fs_write fs output_file (Some content'), result)
  end.

(** What [writerows] writes for rows that all fit the field names. *)
Definition records_of (fieldnames : list string) (rows : list dict)
  : list csv_record :=
  map (fun row => map (fun k => dict_get row k (PStr "")) fieldnames) rows.




(** ** The batch and the command line *)

(** The whitespace [str.strip] removes: tab to carriage return, the four
    separators 28 to 31, and space. *)
Definition is_py_space (c : ascii) : bool :=
  ((N.leb 9 (N_of_ascii c) && N.leb (N_of_ascii c) 13)
   || (N.leb 28 (N_of_ascii c) && N.leb (N_of_ascii c) 32))%bool.

Fixpoint str_lstrip (s : string) : string :=
  match s with
  | EmptyString => EmptyString
  | String c t => if is_py_space c then str_lstrip t else s
  end.

Fixpoint str_rstrip (s : string) : string :=
  match s with
  | EmptyString => EmptyString
  | String c t =>
      let t' := str_rstrip t in
      if (is_py_space c && String.eqb t' "")%bool then EmptyString
      else String c t'
  end.

(** [s.strip()]. *)
Definition str_strip (s : string) : string := str_rstrip (str_lstrip s).

(** [s.split(sep)] for a separator of one character. *)
Fixpoint str_split (sep : ascii) (s : string) : list string :=
  match s with
  | EmptyString => [EmptyString]
  | String c t =>
      if Ascii.eqb c sep then EmptyString :: str_split sep t
      else
        match str_split sep t with
        | piece :: pieces => String c piece :: pieces
        | [] => [String c EmptyString]
        end
  end.

(** The identifiers read from the lines of the input file:
    [[line.strip() for line in f if line.strip()]]. *)
Definition read_genome_ids (lines : list string) : list string :=
  map str_strip
    (filter (fun line => negb (String.eqb (str_strip line) "")) lines).

(** The network by assembly: the outcomes of the sequence report requests
    and of the dataset report request for an identifier. *)
Definition network : Type := string -> script * response.

(** The loop of [process_genome_list] over the identifiers. The outer
    [option] is [None] when a script ends too early; an exception ends the
    loop with the files as they are. *)
Fixpoint process_genomes (genome_ids : list string) (output_file : string)
  (include_unplaced : bool) (exclude_columns : option (list string))
  (net : network) (fs : filesystem) : option (filesystem * pyres unit) :=
  match genome_ids with
  | [] => Some (fs, Ok tt)
  | genome_id :: rest =>
      match fetch_chromosome_table genome_id include_unplaced
              exclude_columns (fst (net genome_id)) (snd (net genome_id))
      with
      | None => None
      | Some (Raise e) => Some (fs, Raise e)
      | Some (Ok (table_data, organism_name)) =>
          match export_to_csv genome_id organism_name table_data
                  output_file fs with
          | (fs', Ok _) =>
              process_genomes rest output_file include_unplaced
                exclude_columns net fs'
          | (fs', Raise e) => Some (fs', Raise e)
          end
      end
  end.

(** [process_genome_list], on the lines of the input file, which is taken
    to be another file than the output: the output file is emptied first. *)
Definition process_genome_list (input_lines : list string)
  (output_file : string) (include_unplaced : bool)
  (exclude_columns : option (list string)) (net : network)
  (fs : filesystem) : option (filesystem * pyres unit) :=
  process_genomes (read_genome_ids input_lines) output_file
    include_unplaced exclude_columns net
    (fs_write fs output_file (Some [])).

(** The parsed command line. *)
Record args : Type := {
  arg_genome_id : option string;
  arg_input_file : option string;
  arg_output_file : option string;
  arg_include_unplaced : bool;
  arg_exclude_columns : option (list string)
}.

(** [bool(x)] for an optional string: [None] and [""] are false. *)
Definition given (x : option string) : bool :=
  match x with
  | Some s => negb (String.eqb s "")
  | None => false
  end.

(** [x or default]. *)
Definition or_default (x : option string) (default : string) : string :=
  match x with
  | Some s => if String.eqb s "" then default else s
  | None => default
  end.

(** The exclusion list of [main]: the values are split at commas and
    stripped. *)
Definition parse_exclude_columns (values : option (list string))
  : option (list string) :=
  match values with
  | Some (v :: l) =>
      Some (flat_map (fun col => map str_strip (str_split "," col)) (v :: l))
  | _ => None
  end.

(** How [main] ends: [parser.error] leaves with a usage message, else the
    run finishes with the files it leaves and its result. *)
Inductive main_outcome : Type :=
| UsageError (message : string)
| Finished (fs : filesystem) (result : pyres unit).

(** [main], from the parsed arguments; [input] gives the lines of the input
    file. *)
Definition main (a : args) (input : string -> list string) (net : network)
  (fs : filesystem) : option main_outcome :=
  let exclude_columns := parse_exclude_columns (arg_exclude_columns a) in
  if (negb (given (arg_genome_id a)) && negb (given (arg_input_file a)))%bool
  then Some (UsageError "Either genome_id or --file must be provided")
  else if (given (arg_genome_id a) && given (arg_input_file a))%bool
  then Some (UsageError "Cannot specify both genome_id and --file")
  else if given (arg_input_file a)
  then
    let output_file := or_default (arg_output_file a) "chromosomes.csv" in
    option_map (fun r => Finished (fst r) (snd r))
      (process_genome_list (input (or_default (arg_input_file a) ""))
         output_file (arg_include_unplaced a) exclude_columns net fs)
  else
    let genome_id := or_default (arg_genome_id a) "" in
    let output_file :=
      or_default (arg_output_file a) (genome_id ++ "_chromosomes.csv") in
    match fetch_chromosome_table genome_id (arg_include_unplaced a)
            exclude_columns (fst (net genome_id)) (snd (net genome_id))
    with
    | None => None
    | Some (Raise e) => Some (Finished fs (Raise e))
    | Some (Ok ([], _)) => Some (Finished fs (Ok tt))
    | Some (Ok (table_data, organism_name)) =>
        let '(fs', result) :=
          export_to_csv genome_id organism_name table_data output_file
            (fs_write fs output_file (Some [])) in
        Some (Finished fs' result)
    end.


(** ** Sample inputs *)

Definition sample_reports : list pyval :=
  [PDict [("chr_name", PStr "2");
          ("assigned_molecule_location_type", PStr "Chromosome");
          ("genbank_accession", PStr "CM000002.1");
          ("length", PInt 242193529); ("gc_percent", PInt 40)];
   PDict [("chr_name", PStr "Un"); ("role", PStr "unplaced-scaffold")];
   PDict [("chr_name", PStr "1");
          ("assigned_molecule_location_type", PStr "Chromosome");
          ("refseq_accession", PStr "NC_000001.11")]].

Definition sample_script : script :=
  [body [("reports", PList sample_reports)]].

Definition sample_dataset : response :=
  Body (PDict [("reports",
                PList [PDict [("organism",
                               PDict [("organism_name",
                                       PStr "Homo sapiens")])]])]).

(** The lines of an input file: an identifier, a blank line, and an
    identifier after a space, without a final newline. *)
Definition sample_lines : list string :=
  [("GCA_1" ++ newline)%string; newline; " GCA_2"].

Definition sample_network : network :=
  fun _ => (sample_script, sample_dataset).

(** * Proofs *)

(** ** The model on sample values *)

Example py_int_samples :
  map py_int [" 12 "; "1_000"; "1__0"; "_1"; "+7"; "-7"; "- 7"; "007"; "";
              "1A"]
  = [Some 12; Some 1000; None; None; Some 7; Some (-7); None; Some 7; None;
     None].
Proof. reflexivity. Qed.

Example re_prefix_num_samples :
  map re_prefix_num ["KI27"; "SCAFFOLD1"; "AB"; "A1B"; "1A"; "AB_1"]
  = [Some ("KI", "27"); Some ("SCAFFOLD", "1"); None; None; None; None].
Proof. reflexivity. Qed.

Example normalize_samples :
  map normalize ["chr10"; "Chr2"; "chrX"; "scaffold1"; "CHR1"]
  = ["10"; "2"; "X"; "SCAFFOLD1"; "CHR1"]
  /\ map normalize_spec ["chr10"; "Chr2"; "chrX"; "scaffold1"; "CHR1"]
     = ["10"; "2"; "X"; "SCAFFOLD1"; "CHR1"].
Proof. split; reflexivity. Qed.

(** [round(0.25, 1) = 0.2], [round(41.55, 1) = 41.5] and
    [round(-0.04, 1) = -0.0], on the binary64 values. *)
Example float_round1_samples :
  float_round1 (S754_finite false 4503599627370496 (-54))
  = S754_finite false 7205759403792794 (-55)
  /\ float_round1 (S754_finite false 5847642641163878 (-47))
     = S754_finite false 5840605766746112 (-47)
  /\ float_round1 (S754_finite true 5764607523034235 (-57))
     = S754_zero true.
Proof. repeat split; vm_compute; reflexivity. Qed.

Open Scope list_scope.

(** ** The result monad *)

Lemma bind_ok {A B : Type} (m : pyres A) (f : A -> pyres B) (b : B) :
  bind m f = Ok b -> exists a, m = Ok a /\ f a = Ok b.
Proof.
  destruct m as [a | e]; simpl; intros H; [eauto | discriminate].
Qed.

Lemma bind_raise {A B : Type} (m : pyres A) (f : A -> pyres B) (e : exn) :
  bind m f = Raise e ->
  m = Raise e \/ exists a, m = Ok a /\ f a = Raise e.
Proof.
  destruct m as [a | e']; simpl; intros H; [right; eauto | left; congruence].
Qed.

(** ** Strings: the order of [<] *)

Lemma ascii_compare_refl (c : ascii) : Ascii.compare c c = Eq.
Proof. unfold Ascii.compare. apply N.compare_refl. Qed.

Lemma ascii_compare_lt_trans (a b c : ascii) :
  Ascii.compare a b = Lt -> Ascii.compare b c = Lt -> Ascii.compare a c = Lt.
Proof.
  unfold Ascii.compare. rewrite !N.compare_lt_iff. apply N.lt_trans.
Qed.

Lemma string_compare_refl (s : string) : String.compare s s = Eq.
Proof.
  induction s as [| c s IH]; simpl; [reflexivity |].
  now rewrite ascii_compare_refl.
Qed.

Lemma string_compare_lt_trans (a : string) :
  forall b c, String.compare a b = Lt -> String.compare b c = Lt ->
              String.compare a c = Lt.
Proof.
  induction a as [| x a IH]; intros [| y b] [| z c]; simpl;
    try discriminate; try reflexivity.
  destruct (Ascii.compare x y) eqn:Hxy; try discriminate;
    destruct (Ascii.compare y z) eqn:Hyz; try discriminate; intros H1 H2.
  - apply Ascii.compare_eq_iff in Hxy, Hyz. subst.
    rewrite ascii_compare_refl. eauto.
  - apply Ascii.compare_eq_iff in Hxy. subst. now rewrite Hyz.
  - apply Ascii.compare_eq_iff in Hyz. subst. now rewrite Hxy.
  - now rewrite (ascii_compare_lt_trans _ _ _ Hxy Hyz).
Qed.

Lemma string_ltb_irrefl (s : string) : String.ltb s s = false.
Proof. unfold String.ltb. now rewrite string_compare_refl. Qed.

Lemma string_ltb_trans (a b c : string) :
  String.ltb a b = true -> String.ltb b c = true -> String.ltb a c = true.
Proof.
  unfold String.ltb.
  destruct (String.compare a b) eqn:Hab; try discriminate.
  destruct (String.compare b c) eqn:Hbc; try discriminate.
  now rewrite (string_compare_lt_trans _ _ _ Hab Hbc).
Qed.

Lemma string_ltb_connected (a b : string) :
  String.ltb a b = false -> String.ltb b a = false -> a = b.
Proof.
  unfold String.ltb. rewrite (String.compare_antisym b a).
  destruct (String.compare a b) eqn:Hab; simpl; try discriminate.
  intros _ _. now apply String.compare_eq_iff.
Qed.



(** ** [sort_key] always returns one of the three shapes *)

Lemma span_all (p : ascii -> bool) (s : string) :
  forall a b, span p s = (a, b) -> str_all p a = true.
Proof.
  induction s as [| c s IH]; simpl; intros a b H.
  - injection H as <- <-. reflexivity.
  - destruct (p c) eqn:Hc.
    + destruct (span p s) as [a' b'] eqn:Hs. injection H as <- <-.
      simpl. rewrite Hc. eapply IH. reflexivity.
    + injection H as <- <-. reflexivity.
Qed.

Lemma digit_not_space (c : ascii) : is_digit c = true -> is_space c = false.
Proof.
  unfold is_digit, is_space. rewrite andb_true_iff, !N.leb_le.
  intros [H1 H2]. apply orb_false_iff. split.
  - apply andb_false_iff. right. apply N.leb_gt. lia.
  - apply N.eqb_neq. lia.
Qed.

Lemma parse_digits_all (s : string) :
  forall acc prev, str_all is_digit s = true ->
    (s <> EmptyString \/ prev = true) ->
    exists n, parse_digits acc prev s = Some n.
Proof.
  induction s as [| c s IH]; simpl; intros acc prev Hall Hne.
  - destruct Hne as [Hne | ->]; [contradiction | eauto].
  - apply andb_true_iff in Hall as [Hc Hs]. rewrite Hc.
    apply IH; auto.
Qed.

Lemma rstrip_digits (s : string) : str_all is_digit s = true -> rstrip s = s.
Proof.
  induction s as [| c s IH]; simpl; intros H; [reflexivity |].
  apply andb_true_iff in H as [Hc Hs].
  rewrite (digit_not_space c Hc), (IH Hs). reflexivity.
Qed.

Lemma lstrip_digits (s : string) : str_all is_digit s = true -> lstrip s = s.
Proof.
  destruct s as [| c s]; simpl; intros H; [reflexivity |].
  apply andb_true_iff in H as [Hc _].
  now rewrite (digit_not_space c Hc).
Qed.

Lemma py_int_unsigned (c : ascii) (t : string) :
  is_digit c = true ->
  rstrip (lstrip (String c t)) = String c t ->
  py_int (String c t) = parse_digits 0 false (String c t).
Proof.
  intros Hc Hs. unfold py_int. rewrite Hs.
  destruct c as [[] [] [] [] [] [] [] []]; try reflexivity;
    discriminate Hc.
Qed.

Lemma py_int_digits (s : string) :
  str_all is_digit s = true -> s <> EmptyString ->
  exists n, py_int s = Some n.
Proof.
  intros Hall Hne. destruct s as [| c t]; [contradiction |].
  assert (Hc : is_digit c = true)
    by (simpl in Hall; now apply andb_true_iff in Hall).
  rewrite py_int_unsigned; auto.
  - apply parse_digits_all; auto.
  - rewrite (lstrip_digits _ Hall). now apply rstrip_digits.
Qed.

Lemma re_prefix_num_digits (s p num : string) :
  re_prefix_num s = Some (p, num) ->
  str_all is_digit num = true /\ num <> EmptyString.
Proof.
  unfold re_prefix_num.
  destruct (span is_upper s) as [letters rest].
  destruct (span is_digit rest) as [digits tail] eqn:Hd.
  destruct (negb (String.eqb letters "")); simpl; try discriminate.
  destruct (String.eqb digits "") eqn:He; simpl; try discriminate.
  destruct (String.eqb tail "" || String.eqb tail newline)%bool;
    try discriminate.
  intros H. injection H as <- <-. split.
  - eapply span_all. exact Hd.
  - now apply String.eqb_neq.
Qed.

Lemma label_key_total (chr_name : string) :
  exists k, label_key chr_name = Ok k /\ key_shape k.
Proof.
  unfold label_key, key_shape.
  destruct (special_lookup chr_name special) as [rank |]; [eauto 6 |].
  destruct (py_int chr_name) as [n |]; [eauto 6 |].
  destruct (re_prefix_num chr_name) as [[p num] |] eqn:Hre; [| eauto 8].
  destruct (re_prefix_num_digits _ _ _ Hre) as [Hall Hne].
  destruct (py_int_digits num Hall Hne) as [n ->]. eauto 8.
Qed.


Lemma sort_key_shape (item : dict) (k : key) :
  sort_key item = Ok k -> key_shape k.
Proof.
  unfold sort_key, dict_index.
  destruct (dict_lookup "Chromosome" item) as [[| | | | label | |] |];
    simpl; try discriminate.
  destruct (label_key_total (normalize label)) as (k' & -> & Hs).
  now intros [= <-].
Qed.

(** ** The order on keys *)

Lemma key_shape_lt (k1 k2 : key) :
  key_shape k1 -> key_shape k2 -> tuple_lt k1 k2 = Ok (key_lt k1 k2).
Proof.
  unfold key_lt.
  intros [[n1 ->] | [(p1 & n1 & ->) | [s1 ->]]]
         [[n2 ->] | [(p2 & n2 & ->) | [s2 ->]]]; simpl;
    try reflexivity;
    repeat match goal with
           | |- context [negb ?b] => destruct b; simpl
           end; reflexivity.
Qed.

Lemma key_lt_irrefl (k : key) : key_shape k -> key_lt k k = false.
Proof.
  unfold key_lt.
  intros [[n ->] | [(p & n & ->) | [s ->]]]; simpl;
    rewrite ?Z.eqb_refl, ?String.eqb_refl; reflexivity.
Qed.

Ltac split_eqb :=
  repeat match goal with
    | H : context [Z.eqb ?x ?y] |- _ =>
        destruct (Z.eqb_spec x y); simpl in H; subst
    | H : context [String.eqb ?x ?y] |- _ =>
        destruct (String.eqb_spec x y); simpl in H; subst
    | |- context [Z.eqb ?x ?y] =>
        destruct (Z.eqb_spec x y); simpl; subst
    | |- context [String.eqb ?x ?y] =>
        destruct (String.eqb_spec x y); simpl; subst
    end.

Ltac order_facts :=
  repeat match goal with
    | H : Ok _ = Ok _ |- _ => injection H as H
    | H : (_ <? _) = true |- _ => apply Z.ltb_lt in H
    | H : (_ <? _) = false |- _ => apply Z.ltb_ge in H
    | H : String.ltb ?s ?s = true |- _ =>
        rewrite string_ltb_irrefl in H; discriminate H
    | H1 : String.ltb ?a ?b = true, H2 : String.ltb ?b ?a = true |- _ =>
        pose proof (string_ltb_trans _ _ _ H1 H2) as Hcyc;
        rewrite string_ltb_irrefl in Hcyc; discriminate Hcyc
    end.

Lemma key_lt_trans (a b c : key) :
  key_shape a -> key_shape b -> key_shape c ->
  key_lt a b = true -> key_lt b c = true -> key_lt a c = true.
Proof.
  unfold key_lt.
  intros [[n1 ->] | [(p1 & n1 & ->) | [s1 ->]]]
         [[n2 ->] | [(p2 & n2 & ->) | [s2 ->]]]
         [[n3 ->] | [(p3 & n3 & ->) | [s3 ->]]]; simpl;
    try discriminate; try reflexivity; intros H1 H2;
    split_eqb; try discriminate; order_facts;
    try apply Z.ltb_lt; try lia; try congruence;
    eauto using string_ltb_trans.
Qed.

Lemma key_lt_connected (a b : key) :
  key_shape a -> key_shape b ->
  key_lt a b = false -> key_lt b a = false -> a = b.
Proof.
  unfold key_lt.
  intros [[n1 ->] | [(p1 & n1 & ->) | [s1 ->]]]
         [[n2 ->] | [(p2 & n2 & ->) | [s2 ->]]]; simpl;
    try discriminate; intros H1 H2;
    split_eqb; try discriminate; try reflexivity; order_facts;
    try lia; try congruence;
    try (exfalso; match goal with
                  | Hn : ?x <> ?y |- _ =>
                      apply Hn; apply string_ltb_connected; assumption
                  end).
Qed.

Lemma key_lt_le_trans (a b c : key) :
  key_shape a -> key_shape b -> key_shape c ->
  key_lt a b = true -> key_le b c -> key_lt a c = true.
Proof.
  unfold key_le. intros Ha Hb Hc Hab Hbc.
  destruct (key_lt b c) eqn:Hlt.
  - apply (key_lt_trans a b c); assumption.
  - now rewrite <- (key_lt_connected b c Hb Hc Hlt Hbc).
Qed.


Lemma key_lt_asym (a b : key) :
  key_shape a -> key_shape b -> key_lt a b = true -> key_lt b a = false.
Proof.
  intros Ha Hb Hab. destruct (key_lt b a) eqn:Hba; [| reflexivity].
  pose proof (key_lt_trans a b a Ha Hb Ha Hab Hba) as H.
  rewrite (key_lt_irrefl a Ha) in H. discriminate H.
Qed.

(** ** The sort: permutation, order, stability, idempotence *)

Section SortFacts.
Context {A : Type}.
Variable keyf : A -> pyres key.
Hypothesis keyf_shape : forall x k, keyf x = Ok k -> key_shape k.

Lemma decorated_shaped l : decorated keyf l -> shaped l.
Proof.
  unfold decorated, shaped. intros H.
  eapply Forall_impl; [| exact H]. intros p Hp. exact (keyf_shape _ _ Hp).
Qed.

Lemma decorate_ok l kl :
  decorate keyf l = Ok kl -> map snd kl = l /\ decorated keyf kl.
Proof.
  revert kl. induction l as [| x l IH]; simpl; intros kl H.
  - injection H as <-. split; [reflexivity | constructor].
  - apply bind_ok in H as (k & Hk & H).
    apply bind_ok in H as (r & Hr & H). injection H as <-.
    destruct (IH r Hr) as [Hm Hd]. split.
    + simpl. now rewrite Hm.
    + constructor; assumption.
Qed.


Lemma insert_sorted_perm (x : key * A) l r :
  insert_sorted x l = Ok r -> Permutation (x :: l) r.
Proof.
  revert r. induction l as [| y l IH]; simpl; intros r H.
  - injection H as <-. apply Permutation_refl.
  - apply bind_ok in H as (b & _ & H). destruct b.
    + injection H as <-. apply Permutation_refl.
    + apply bind_ok in H as (r' & Hr & H). injection H as <-.
      eapply perm_trans; [apply perm_swap |].
      apply perm_skip. now apply IH.
Qed.

Lemma sort_into_perm (l : list (key * A)) : forall acc r,
  sort_into acc l = Ok r -> Permutation (acc ++ l) r.
Proof.
  induction l as [| x l IH]; simpl; intros acc r H.
  - injection H as <-. rewrite app_nil_r. apply Permutation_refl.
  - apply bind_ok in H as (acc' & Hi & H).
    apply perm_trans with (acc' ++ l)%list; [| apply (IH _ _ H)].
    apply perm_trans with ((x :: acc) ++ l)%list;
      [apply Permutation_sym, Permutation_middle |].
    apply Permutation_app_tail. exact (insert_sorted_perm _ _ _ Hi).
Qed.


Lemma insert_sorted_sorted (x : key * A) l r :
  key_shape (fst x) -> shaped l -> sorted l ->
  insert_sorted x l = Ok r -> sorted r.
Proof.
  intros Hx Hl Hs. revert r.
  induction Hs as [| y l Hs IH Hy]; simpl; intros r H.
  - injection H as <-. repeat constructor.
  - inversion Hl as [| ? ? Hky Hl']; subst.
    rewrite (key_shape_lt _ _ Hx Hky) in H. simpl in H.
    destruct (key_lt (fst x) (fst y)) eqn:Hlt.
    + injection H as <-. constructor.
      * constructor; assumption.
      * constructor.
        -- unfold entry_le, key_le. now apply key_lt_asym.
        -- rewrite Forall_forall in *. intros z Hz.
           unfold entry_le, key_le. apply key_lt_asym; auto.
           apply (key_lt_le_trans _ (fst y)); auto. now apply Hy.
    + apply bind_ok in H as (r' & Hr & H). injection H as <-.
      constructor.
      * now apply IH.
      * eapply Permutation_Forall;
          [apply (insert_sorted_perm _ _ _ Hr) |].
        constructor; assumption.
Qed.

Lemma insert_sorted_shaped (x : key * A) l r :
  key_shape (fst x) -> shaped l -> insert_sorted x l = Ok r -> shaped r.
Proof.
  intros Hx Hl H. unfold shaped.
  eapply Permutation_Forall; [apply (insert_sorted_perm _ _ _ H) |].
  constructor; assumption.
Qed.


Lemma sort_into_sorted (l : list (key * A)) : forall acc r,
  shaped acc -> shaped l -> sorted acc ->
  sort_into acc l = Ok r -> sorted r.
Proof.
  induction l as [| x l IH]; simpl; intros acc r Ha Hl Hs H.
  - now injection H as <-.
  - inversion Hl as [| ? ? Hx Hl']; subst.
    apply bind_ok in H as (acc' & Hi & H).
    apply (IH acc' r); auto.
    + exact (insert_sorted_shaped x acc acc' Hx Ha Hi).
    + exact (insert_sorted_sorted x acc acc' Hx Ha Hs Hi).
Qed.
End SortFacts.


Section SortStable.
Context {A : Type}.
Variable keyf : A -> pyres key.
Hypothesis keyf_shape : forall x k, keyf x = Ok k -> key_shape k.








(** What the sort returns: the decorated list behind the result is a sorted
    permutation of the decorated input. *)
Lemma list_sort_inv (l l' : list A) :
  list_sort keyf l = Ok l' ->
  exists kl s, decorate keyf l = Ok kl /\ sort_into [] kl = Ok s
               /\ l' = map snd s /\ decorated keyf s /\ sorted s
               /\ Permutation kl s.
Proof.
  unfold list_sort. intros H.
  apply bind_ok in H as (kl & Hd & H).
  apply bind_ok in H as (s & Hs & H). injection H as <-.
  destruct (decorate_ok keyf l kl Hd) as [_ Hdec].
  pose proof (sort_into_perm kl [] s Hs) as Hp. simpl in Hp.
  exists kl, s. repeat split; auto.
  - eapply Permutation_Forall; [exact Hp | exact Hdec].
  - apply (sort_into_sorted kl [] s); auto.
    + constructor.
    + exact (decorated_shaped keyf keyf_shape kl Hdec).
    + constructor.
Qed.

Lemma list_sort_perm (l l' : list A) :
  list_sort keyf l = Ok l' -> Permutation l l'.
Proof.
  intros H. destruct (list_sort_inv l l' H)
    as (kl & s & Hd & _ & -> & _ & _ & Hp).
  destruct (decorate_ok keyf l kl Hd) as [<- _].
  now apply Permutation_map.
Qed.


End SortStable.

(** ** Sorting commutes with a map that preserves the keys *)

Section SortMap.
Context {A B : Type}.
Variable f : A -> B.
Variable keyA : A -> pyres key.
Variable keyB : B -> pyres key.
Hypothesis key_preserved : forall x, keyB (f x) = keyA x.

Let lift (p : key * A) : key * B := (fst p, f (snd p)).

Lemma decorate_map (l : list A) :
  decorate keyB (map f l) = res_map (map lift) (decorate keyA l).
Proof.
  induction l as [| x l IH]; simpl; [reflexivity |].
  rewrite key_preserved, IH.
  destruct (keyA x); simpl; [| reflexivity].
  destruct (decorate keyA l); reflexivity.
Qed.

Lemma insert_sorted_map (x : key * A) (l : list (key * A)) :
  insert_sorted (lift x) (map lift l)
  = res_map (map lift) (insert_sorted x l).
Proof.
  induction l as [| y l IH]; simpl; [reflexivity |].
  destruct (tuple_lt (fst x) (fst y)) as [[|] | e]; simpl;
    try reflexivity.
  rewrite IH. destruct (insert_sorted x l); reflexivity.
Qed.

Lemma sort_into_map (l : list (key * A)) : forall acc,
  sort_into (map lift acc) (map lift l)
  = res_map (map lift) (sort_into acc l).
Proof.
  induction l as [| x l IH]; simpl; intros acc; [reflexivity |].
  rewrite insert_sorted_map.
  destruct (insert_sorted x acc) as [acc' | e]; simpl; [| reflexivity].
  apply IH.
Qed.

Lemma list_sort_map (l : list A) :
  list_sort keyB (map f l) = res_map (map f) (list_sort keyA l).
Proof.
  unfold list_sort. rewrite decorate_map.
  destruct (decorate keyA l) as [kl | e]; simpl; [| reflexivity].
  pose proof (sort_into_map kl []) as H. simpl in H. rewrite H.
  destruct (sort_into [] kl) as [s | e]; simpl; [| reflexivity].
  rewrite !map_map. reflexivity.
Qed.
End SortMap.

(** ** Dictionaries and projection *)

Lemma dict_lookup_filter (p : string -> bool) (k : string) (d : dict) :
  dict_lookup k (filter (fun kv => p (fst kv)) d)
  = if p k then dict_lookup k d else None.
Proof.
  induction d as [| [k' v] d IH]; simpl.
  - now destruct (p k).
  - destruct (String.eqb_spec k' k) as [-> | Hne].
    + destruct (p k) eqn:Hp; simpl.
      * now rewrite String.eqb_refl.
      * exact IH.
    + destruct (p k'); simpl.
      * apply String.eqb_neq in Hne. now rewrite Hne.
      * exact IH.
Qed.

Lemma project_lookup (excl : option (list string)) (k : string) (row : dict) :
  dict_lookup k (project excl row)
  = if excluded excl k then None else dict_lookup k row.
Proof.
  unfold project. destruct (exclude_active excl) eqn:Ha.
  - rewrite (dict_lookup_filter (fun k => negb (excluded excl k))).
    now destruct (excluded excl k).
  - destruct excl as [[| c l] |]; try discriminate Ha; reflexivity.
Qed.

Lemma sort_key_project (excl : option (list string)) (row : dict) :
  excluded excl "Chromosome" = false ->
  sort_key (project excl row) = sort_key row.
Proof.
  intros H. unfold sort_key, dict_index.
  now rewrite project_lookup, H.
Qed.

Lemma sort_key_project_excluded (excl : option (list string)) (row : dict) :
  excluded excl "Chromosome" = true ->
  sort_key (project excl row) = Raise KeyError.
Proof.
  intros H. unfold sort_key, dict_index.
  now rewrite project_lookup, H.
Qed.

(** ** The mapping loop *)

Section MappingFacts.
Variable genome_id : string.
Variable organism_name : pyval.
Variable include_unplaced : bool.
Variable exclude_columns : option (list string).

Let map_record' := map_record genome_id organism_name include_unplaced.
Let map_records' := map_records genome_id organism_name include_unplaced.

Lemma map_record_project (seq : pyval) :
  map_record' exclude_columns seq
  = res_map (option_map (project exclude_columns)) (map_record' None seq).
Proof.
  unfold map_record', map_record.
  destruct seq; try reflexivity.
  destruct (keeps include_unplaced d); [| reflexivity].
  destruct (build_row genome_id organism_name d); reflexivity.
Qed.

Lemma map_records_project (reports : list pyval) : forall acc,
  map_records' exclude_columns reports (map (project exclude_columns) acc)
  = res_map (map (project exclude_columns)) (map_records' None reports acc).
Proof.
  unfold map_records'.
  induction reports as [| seq rest IH]; simpl; intros acc; [reflexivity |].
  pose proof (map_record_project seq) as Hp.
  unfold map_record' in Hp. rewrite Hp.
  destruct (map_record genome_id organism_name include_unplaced None seq)
    as [[row |] | e]; simpl.
  - rewrite <- IH. now rewrite map_app.
  - apply IH.
  - reflexivity.
Qed.

(** A property of the rows of all kept records holds of the whole table. *)
Lemma map_records_Forall (P : dict -> Prop) (reports : list pyval) :
  (forall seq row, In seq reports ->
     map_record' exclude_columns seq = Ok (Some row) -> P row) ->
  forall acc td, Forall P acc ->
    map_records' exclude_columns reports acc = Ok td -> Forall P td.
Proof.
  unfold map_record', map_records'.
  induction reports as [| seq rest IH]; simpl; intros HP acc td Hacc H.
  - now injection H as <-.
  - apply bind_ok in H as (r & Hr & H).
    assert (HP' : forall seq0 row, In seq0 rest ->
              map_record genome_id organism_name include_unplaced
                exclude_columns seq0 = Ok (Some row) -> P row)
      by (intros s0 row Hin; apply HP; now right).
    destruct r as [row |].
    + apply (IH HP' (acc ++ [row]) td); auto.
      apply Forall_app. split; [exact Hacc |].
      constructor; [| constructor]. apply (HP seq); auto.
    + apply (IH HP' acc td); auto.
Qed.

(** The first record whose mapping raises ends the loop with its
    exception. *)
Lemma map_records_raise (pre post : list pyval) (seq : pyval) (e : exn) :
  forall acc rows,
    map_records' exclude_columns pre acc = Ok rows ->
    map_record' exclude_columns seq = Raise e ->
    map_records' exclude_columns (pre ++ seq :: post) acc = Raise e.
Proof.
  unfold map_record', map_records'.
  induction pre as [| s pre IH]; simpl; intros acc rows Hpre Hseq.
  - now rewrite Hseq.
  - apply bind_ok in Hpre as (r & Hr & Hpre). rewrite Hr. simpl.
    destruct r as [row |]; eapply IH; eauto.
Qed.

(** On records that are all objects, only [round] can raise. *)
Lemma map_record_dict_raise (d : dict) (e : exn) :
  map_record' exclude_columns (PDict d) = Raise e -> e = TypeError.
Proof.
  unfold map_record', map_record, build_row, gc_field.
  destruct (keeps include_unplaced d); [| discriminate].
  destruct (truthy (dict_get d "gc_percent" PNone)); simpl;
    [| discriminate].
  destruct (dict_get d "gc_percent" (PInt 0)); simpl;
    try discriminate; now intros [= <-].
Qed.

Lemma map_records_dicts_raise (reports : list pyval) (e : exn) :
  forallb is_dict reports = true ->
  forall acc, map_records' exclude_columns reports acc = Raise e ->
    e = TypeError.
Proof.
  unfold map_records'.
  induction reports as [| seq rest IH]; simpl; intros Hd acc H;
    [discriminate H |].
  apply andb_true_iff in Hd as [Hs Hrest].
  apply bind_raise in H as [H | (r & Hr & H)].
  - destruct seq; try discriminate Hs.
    now apply (map_record_dict_raise d).
  - destruct r; eapply IH; eauto.
Qed.

Lemma map_record_kept (d : dict) :
  keeps include_unplaced d = true ->
  map_record' exclude_columns (PDict d)
  = res_map (fun row => Some (project exclude_columns row))
      (build_row genome_id organism_name d).
Proof.
  unfold map_record', map_record. intros ->.
  destruct (build_row genome_id organism_name d); reflexivity.
Qed.

(** A kept record adds a row: the table is then not empty. *)
Lemma map_records_grows (reports : list pyval) (d : dict) :
  In (PDict d) reports -> keeps include_unplaced d = true ->
  forall acc td, map_records' exclude_columns reports acc = Ok td ->
    (List.length acc < List.length td)%nat.
Proof.
  unfold map_records'. intros Hin Hk acc td H.
  assert (Hmono : forall l a t,
            map_records genome_id organism_name include_unplaced
              exclude_columns l a = Ok t ->
            (List.length a <= List.length t)%nat).
  { induction l as [| s l IHl]; simpl; intros a t Ht.
    - injection Ht as <-. lia.
    - apply bind_ok in Ht as (r & _ & Ht). destruct r as [row |].
      + apply IHl in Ht. rewrite List.length_app in Ht. simpl in Ht. lia.
      + now apply IHl. }
  revert acc td H.
  induction reports as [| seq rest IH]; simpl; intros acc td H;
    [contradiction |].
  apply bind_ok in H as (r & Hr & H).
  destruct Hin as [-> | Hin].
  - pose proof (map_record_kept d Hk) as Hm. unfold map_record' in Hm.
    rewrite Hm in Hr.
    destruct (build_row genome_id organism_name d) as [row |];
      [| discriminate Hr].
    injection Hr as <-. apply Hmono in H.
    rewrite List.length_app in H. simpl in H. lia.
  - destruct r as [row |].
    + apply (IH Hin) in H. rewrite List.length_app in H. simpl in H. lia.
    + now apply (IH Hin).
Qed.
End MappingFacts.

(** ** The row of a kept record *)


Lemma build_row_fields (genome_id : string) (organism_name : pyval)
  (seq row : dict) :
  build_row genome_id organism_name seq = Ok row ->
  exists gc, gc_field seq = Ok gc
    /\ row = [("GenomeID", PStr genome_id);
              ("Taxon", organism_name);
              ("Chromosome", resolve_label seq);
              ("GenBank", dict_get seq "genbank_accession" (PStr "N/A"));
              ("RefSeq", dict_get seq "refseq_accession" (PStr "n/a"));
              ("Size (bp)", dict_get seq "length" (PInt 0));
              ("GC content (%)", gc)].
Proof.
  unfold build_row. intros H. apply bind_ok in H as (gc & Hgc & H).
  injection H as <-. eauto.
Qed.

Lemma map_record_inv (genome_id : string) (organism_name : pyval)
  (include_unplaced : bool) (exclude_columns : option (list string))
  (seq : pyval) (row : dict) :
  map_record genome_id organism_name include_unplaced exclude_columns seq
  = Ok (Some row) ->
  exists d full,
    seq = PDict d /\ keeps include_unplaced d = true
    /\ build_row genome_id organism_name d = Ok full
    /\ row = project exclude_columns full.
Proof.
  unfold map_record. destruct seq; try discriminate.
  destruct (keeps include_unplaced d) eqn:Hk; [| discriminate].
  intros H. apply bind_ok in H as (full & Hb & H).
  injection H as <-. eauto 6.
Qed.




(** C8. In the row of a kept record the Chromosome column is the value of
    [chr_name] when that key is present, else the value of
    [assigned_molecule] when present, else "N/A"; GenBank defaults to
    "N/A", RefSeq to the lowercase "n/a", and the size to 0 (each column
    being there unless it is excluded). *)
Theorem field_defaults (genome_id : string) (organism_name : pyval)
  (include_unplaced : bool) (exclude_columns : option (list string))
  (seq row : dict) :
  map_record genome_id organism_name include_unplaced exclude_columns
    (PDict seq) = Ok (Some row) ->
  let column k v :=
    dict_lookup k row = if excluded exclude_columns k then None else Some v in
  column "Chromosome"
    match dict_lookup "chr_name" seq with
    | Some v => v
    | None =>
        match dict_lookup "assigned_molecule" seq with
        | Some v => v
        | None => PStr "N/A"
        end
    end
  /\ column "GenBank"
       match dict_lookup "genbank_accession" seq with
       | Some v => v
       | None => PStr "N/A"
       end
  /\ column "RefSeq"
       match dict_lookup "refseq_accession" seq with
       | Some v => v
       | None => PStr "n/a"
       end
  /\ column "Size (bp)"
       match dict_lookup "length" seq with
       | Some v => v
       | None => PInt 0
       end.
Proof.
  intros H column.
  apply map_record_inv in H as (d & full & [= <-] & _ & Hb & ->).
  apply build_row_fields in Hb as (g & _ & ->).
  unfold column. rewrite !project_lookup.
  repeat split;
    match goal with
    | |- context [excluded exclude_columns ?k] =>
        destruct (excluded exclude_columns k); reflexivity
    end.
Qed.

Lemma field_defaults_witness :
  dict_lookup "RefSeq"
    [("GenomeID", PStr "GCA_1"); ("Taxon", PStr "Homo sapiens");
     ("Chromosome", PStr "MT"); ("GenBank", PStr "N/A");
     ("RefSeq", PStr "n/a"); ("Size (bp)", PInt 0);
     ("GC content (%)", PNone)]
  = Some (PStr "n/a").
Proof.
  exact (proj1 (proj2 (proj2
    (field_defaults "GCA_1" (PStr "Homo sapiens") false None
       [("assigned_molecule", PStr "MT");
        ("assigned_molecule_location_type", PStr "Chromosome")]
       _ eq_refl)))).
Defined.

(** [round_tenths] is a nearest integer to ten times the value: it is off
    by at most one half. *)
Lemma round_tenths_nearest (m : positive) (p : positive) :
  2 * Z.abs (round_tenths m (Zneg p) * Z.pow_pos 2 p - 10 * Zpos m)
  <= Z.pow_pos 2 p.
Proof.
  unfold round_tenths.
  assert (Hden : 0 < Z.pow_pos 2 p)
    by (rewrite Z.pow_pos_fold; apply Z.pow_pos_nonneg; lia).
  pose proof (Z.div_mod (10 * Zpos m) (Z.pow_pos 2 p)) as Hdm.
  pose proof (Z.mod_pos_bound (10 * Zpos m) (Z.pow_pos 2 p) Hden) as Hb.
  set (den := Z.pow_pos 2 p) in *.
  set (q := 10 * Zpos m / den) in *.
  set (r := (10 * Zpos m) mod den) in *.
  assert (Hnum : 10 * Zpos m = den * q + r) by (apply Hdm; lia).
  rewrite Hnum.
  destruct (Z.compare_spec (2 * r) den) as [Hc | Hc | Hc].
  - destruct (Z.even q); lia.
  - lia.
  - lia.
Qed.



(** ** The table as a whole *)

Lemma list_sort_first_raise (row : dict) (rest : list dict) (e : exn) :
  sort_key row = Raise e -> list_sort sort_key (row :: rest) = Raise e.
Proof. unfold list_sort. simpl. now intros ->. Qed.

(** C5. When a record raises a key, index or type error while it is
    mapped, or a row does while the table is sorted, the table returned for
    the assembly is empty and is paired with the organism name; a table
    that is returned is empty or is the sorted table of all the kept
    records, never a part of it. *)
Theorem mapping_all_or_nothing (genome_id : string) (organism_name : pyval)
  (include_unplaced : bool) (exclude_columns : option (list string))
  (reports : list pyval) :
  let run := classify_and_map genome_id organism_name include_unplaced
               exclude_columns in
  let loop := map_records genome_id organism_name include_unplaced
                exclude_columns in
  (forall pre seq post rows e,
      reports = pre ++ seq :: post ->
      loop pre [] = Ok rows ->
      map_record genome_id organism_name include_unplaced exclude_columns
        seq = Raise e ->
      caught e = true ->
      run reports = Ok ([], organism_name))
  /\ (forall table_data e,
         loop reports [] = Ok table_data ->
         list_sort sort_key table_data = Raise e ->
         caught e = true ->
         run reports = Ok ([], organism_name))
  /\ (forall rows name,
         run reports = Ok (rows, name) ->
         name = organism_name
         /\ (rows = []
             \/ exists table_data,
                 loop reports [] = Ok table_data
                 /\ list_sort sort_key table_data = Ok rows
                 /\ Permutation table_data rows)).
Proof.
  intros run loop. unfold run, loop, classify_and_map. repeat split.
  - intros pre seq post rows e -> Hpre Hseq Hc.
    rewrite (map_records_raise genome_id organism_name include_unplaced
               exclude_columns pre post seq e [] rows Hpre Hseq).
    simpl. now rewrite Hc.
  - intros td e -> Hs Hc. simpl. now rewrite Hs, Hc.
  - destruct (map_records genome_id organism_name include_unplaced
                exclude_columns reports []) as [td | e]; simpl in *.
    + destruct (list_sort sort_key td) as [s | e]; [congruence |].
      destruct (caught e); congruence.
    + destruct (caught e); congruence.
  - destruct (map_records genome_id organism_name include_unplaced
                exclude_columns reports []) as [td | e]; simpl in *.
    + destruct (list_sort sort_key td) as [s | e] eqn:Hs.
      * injection H as <- <-. right. exists td. repeat split; auto.
        exact (list_sort_perm sort_key sort_key_shape _ _ Hs).
      * destruct (caught e); [| discriminate H].
        injection H as <- <-. now left.
    + destruct (caught e); [| discriminate H].
      injection H as <- <-. now left.
Qed.

Lemma mapping_all_or_nothing_witness :
  classify_and_map "GCA_1" (PStr "Homo sapiens") false None
    [PDict [("chr_name", PStr "1");
            ("assigned_molecule_location_type", PStr "Chromosome")];
     PDict [("chr_name", PStr "2");
            ("assigned_molecule_location_type", PStr "Chromosome");
            ("gc_percent", PStr "41.5")]]
  = Ok ([], PStr "Homo sapiens").
Proof.
  apply (proj1 (mapping_all_or_nothing "GCA_1" (PStr "Homo sapiens") false
                  None _)
           [PDict [("chr_name", PStr "1");
                   ("assigned_molecule_location_type", PStr "Chromosome")]]
           (PDict [("chr_name", PStr "2");
                   ("assigned_molecule_location_type", PStr "Chromosome");
                   ("gc_percent", PStr "41.5")])
           [] _ TypeError eq_refl eq_refl eq_refl eq_refl).
Defined.

(** C10. When the Chromosome column is excluded and some record passes the
    inclusion rule, the returned table is empty and paired with the
    organism name: whenever the mapping gives a table, the sort key of its
    rows raises [KeyError], which the handler catches. The raw records are
    objects. *)
Theorem excluded_chromosome_empties (genome_id : string)
  (organism_name : pyval) (include_unplaced : bool)
  (exclude_columns : option (list string)) (reports : list pyval)
  (d : dict) :
  excluded exclude_columns "Chromosome" = true ->
  forallb is_dict reports = true ->
  In (PDict d) reports ->
  keeps include_unplaced d = true ->
  classify_and_map genome_id organism_name include_unplaced exclude_columns
    reports = Ok ([], organism_name)
  /\ (forall table_data,
         map_records genome_id organism_name include_unplaced
           exclude_columns reports [] = Ok table_data ->
         table_data <> []
         /\ list_sort sort_key table_data = Raise KeyError).
Proof.
  intros Hex Hd Hin Hk.
  assert (Hsort : forall td,
             map_records genome_id organism_name include_unplaced
               exclude_columns reports [] = Ok td ->
             td <> [] /\ list_sort sort_key td = Raise KeyError).
  { intros td Hm.
    pose proof (map_records_grows genome_id organism_name include_unplaced
                  exclude_columns reports d Hin Hk [] td Hm) as Hlen.
    assert (Hall : Forall (fun row => sort_key row = Raise KeyError) td).
    { apply (map_records_Forall genome_id organism_name include_unplaced
               exclude_columns _ reports) with (acc := []);
        [| constructor | exact Hm].
      intros s row _ Hrow.
      apply map_record_inv in Hrow as (d' & full & _ & _ & _ & ->).
      now apply sort_key_project_excluded. }
    destruct td as [| row rest]; [simpl in Hlen; lia |].
    split; [discriminate |].
    apply list_sort_first_raise. now inversion Hall. }
  split; [| exact Hsort].
  unfold classify_and_map.
  destruct (map_records genome_id organism_name include_unplaced
              exclude_columns reports []) as [td | e] eqn:Hm; simpl.
  - destruct (Hsort td eq_refl) as [_ ->]. reflexivity.
  - rewrite (map_records_dicts_raise genome_id organism_name
               include_unplaced exclude_columns reports e Hd [] Hm).
    reflexivity.
Qed.

Lemma excluded_chromosome_empties_witness :
  classify_and_map "GCA_1" (PStr "Homo sapiens") false
    (Some ["Chromosome"])
    [PDict [("chr_name", PStr "1");
            ("assigned_molecule_location_type", PStr "Chromosome")]]
  = Ok ([], PStr "Homo sapiens").
Proof.
  apply (proj1 (excluded_chromosome_empties "GCA_1" (PStr "Homo sapiens")
                  false (Some ["Chromosome"])
                  [PDict [("chr_name", PStr "1");
                          ("assigned_molecule_location_type",
                           PStr "Chromosome")]]
                  [("chr_name", PStr "1");
                   ("assigned_molecule_location_type", PStr "Chromosome")]
                  eq_refl eq_refl (or_introl eq_refl) eq_refl)).
Defined.

(** ** Column projection *)

(** Projection acts on the whole run as it acts on each row, as long as
    the Chromosome column stays. *)
Lemma classify_and_map_project (genome_id : string) (organism_name : pyval)
  (include_unplaced : bool) (exclude_columns : option (list string))
  (reports : list pyval) :
  excluded exclude_columns "Chromosome" = false ->
  classify_and_map genome_id organism_name include_unplaced exclude_columns
    reports
  = res_map (fun r => (map (project exclude_columns) (fst r), snd r))
      (classify_and_map genome_id organism_name include_unplaced None
         reports).
Proof.
  intros Hex. unfold classify_and_map.
  pose proof (map_records_project genome_id organism_name include_unplaced
                exclude_columns reports []) as Hm.
  simpl in Hm. rewrite Hm.
  destruct (map_records genome_id organism_name include_unplaced None
              reports []) as [td | e]; simpl.
  - rewrite (list_sort_map (project exclude_columns) sort_key sort_key
               (fun row => sort_key_project exclude_columns row Hex)).
    destruct (list_sort sort_key td) as [s | e]; simpl; [reflexivity |].
    destruct (caught e); reflexivity.
  - destruct (caught e); reflexivity.
Qed.

(** C9. Running with the exclusion set {"RefSeq"} gives the rows of the run
    without exclusion, in the same order, each without its RefSeq field and
    with every other field unchanged; so does the header. With an empty or
    unset exclusion set projection is the identity. *)
Theorem exclude_refseq_frame (genome_id : string) (organism_name : pyval)
  (include_unplaced : bool) (reports : list pyval) :
  let run := classify_and_map genome_id organism_name include_unplaced in
  let drop := project (Some ["RefSeq"]) in
  run (Some ["RefSeq"]) reports
  = res_map (fun r => (map drop (fst r), snd r)) (run None reports)
  /\ (forall row, dict_lookup "RefSeq" (drop row) = None)
  /\ (forall row k, k <> "RefSeq" ->
        dict_lookup k (drop row) = dict_lookup k row)
  /\ (forall row,
        map fst (drop row)
        = filter (fun k => negb (String.eqb k "RefSeq")) (map fst row))
  /\ (forall rows,
        csv_header (map drop rows)
        = filter (fun k => negb (String.eqb k "RefSeq")) (csv_header rows))
  /\ run (Some []) reports = run None reports
  /\ (forall row, project None row = row /\ project (Some []) row = row).
Proof.
  intros run drop.
  assert (Hkeys : forall row,
             map fst (drop row)
             = filter (fun k => negb (String.eqb k "RefSeq")) (map fst row)).
  { intros row. unfold drop, project. simpl.
    induction row as [| [k v] row IH]; simpl; [reflexivity |].
    rewrite orb_false_r.
    destruct (String.eqb k "RefSeq"); simpl; now rewrite IH. }
  repeat split; auto.
  - unfold run, drop. now apply classify_and_map_project.
  - intros row. unfold drop. now rewrite project_lookup.
  - intros row k Hk. unfold drop. rewrite project_lookup. simpl.
    apply String.eqb_neq in Hk. now rewrite Hk.
  - intros [| row rows]; simpl; [reflexivity | apply Hkeys].
Qed.




(** The orders the specification gives as examples. *)
Example sort_example_mixed :
  list_sort sort_key
    (map (fun l => [("Chromosome", PStr l)])
       ["chr2"; "chrX"; "chr10"; "scaffold1"; "chrY"; "chrMT"; "chr1"])
  = Ok (map (fun l => [("Chromosome", PStr l)])
          ["chr1"; "chr2"; "chr10"; "chrX"; "chrY"; "chrMT"; "scaffold1"]).
Proof. vm_compute. reflexivity. Qed.

Example sort_example_prefixed :
  list_sort sort_key
    (map (fun l => [("Chromosome", PStr l)]) ["KI27"; "KI3"; "AB1"])
  = Ok (map (fun l => [("Chromosome", PStr l)]) ["AB1"; "KI3"; "KI27"]).
Proof. vm_compute. reflexivity. Qed.

(** ** Pagination *)

Lemma read_page_continued (d : dict) (items reports : list pyval) :
  page_items d = Ok items ->
  read_page (PDict d) reports = Ok (reports ++ items, page_token d).
Proof.
  unfold read_page, page_items, page_token. simpl. now intros ->.
Qed.

(** Pages that carry a token are consumed one after the other, their items
    being appended in order. *)
Lemma fetch_pages_continued (pages : list dict) (itemss : list (list pyval)) :
  Forall2 continued_page pages itemss ->
  forall net reports,
    fetch_pages (map body pages ++ net) reports
    = fetch_pages net (reports ++ List.concat itemss).
Proof.
  induction 1 as [| d items pages itemss [Hi Ht] _ IH]; simpl;
    intros net reports.
  - now rewrite app_nil_r.
  - rewrite (read_page_continued d items reports Hi), Ht.
    rewrite IH. now rewrite app_assoc.
Qed.

(** C6. Over any sequence of pages that carry a continuation token, the
    fetch accumulates the reports of the pages in arrival order; it stops
    at the first page without a token, returning everything accumulated
    with that page's reports; and when a request fails it returns exactly
    what the preceding pages gave, without raising. *)
Theorem fetch_all_accumulates (pages : list dict)
  (itemss : list (list pyval)) :
  Forall2 continued_page pages itemss ->
  (forall last items rest,
      page_items last = Ok items ->
      truthy (page_token last) = false ->
      fetch_all_sequence_reports (map body pages ++ body last :: rest)
      = Some (Ok (List.concat itemss ++ items)))
  /\ (forall rest,
        fetch_all_sequence_reports (map body pages ++ RequestFailed :: rest)
        = Some (Ok (List.concat itemss))).
Proof.
  intros Hp. unfold fetch_all_sequence_reports. split.
  - intros last items rest Hi Ht.
    rewrite (fetch_pages_continued pages itemss Hp). simpl.
    now rewrite (read_page_continued last items _ Hi), Ht.
  - intros rest. now rewrite (fetch_pages_continued pages itemss Hp).
Qed.

Lemma fetch_all_accumulates_witness :
  fetch_all_sequence_reports
    [body [("reports", PList [PInt 1; PInt 2]);
           ("next_page_token", PStr "t1")];
     body [("reports", PList [PInt 3])]]
  = Some (Ok [PInt 1; PInt 2; PInt 3])
  /\ fetch_all_sequence_reports
       [body [("reports", PList [PInt 1; PInt 2]);
              ("next_page_token", PStr "t1")];
        RequestFailed]
     = Some (Ok [PInt 1; PInt 2]).
Proof.
  assert (Hp : Forall2 continued_page
                 [[("reports", PList [PInt 1; PInt 2]);
                   ("next_page_token", PStr "t1")]]
                 [[PInt 1; PInt 2]])
    by (repeat constructor).
  destruct (fetch_all_accumulates _ _ Hp) as [Hlast Hfail].
  split.
  - exact (Hlast [("reports", PList [PInt 3])] [PInt 3] [] eq_refl eq_refl).
  - exact (Hfail []).
Defined.

(** ** Normalization of the labels *)









(** ** Comparability of the keys *)




(** * Further properties of the code *)

(** ** What the table returned by [fetch_chromosome_table] holds *)

Lemma map_records_kept_rows (genome_id : string) (organism_name : pyval)
  (include_unplaced : bool) (exclude_columns : option (list string))
  (reports : list pyval) :
  forall acc td,
    map_records genome_id organism_name include_unplaced exclude_columns
      reports acc = Ok td ->
    td = acc ++ kept_rows genome_id organism_name include_unplaced
                  exclude_columns reports.
Proof.
  induction reports as [| seq rest IH]; simpl; intros acc td H.
  - injection H as <-. now rewrite app_nil_r.
  - apply bind_ok in H as (r & Hr & H). rewrite Hr.
    destruct r as [row |]; apply IH in H; subst td.
    + now rewrite <- app_assoc.
    + reflexivity.
Qed.

Lemma kept_rows_origin (genome_id : string) (organism_name : pyval)
  (include_unplaced : bool) (exclude_columns : option (list string))
  (reports : list pyval) (row : dict) :
  In row (kept_rows genome_id organism_name include_unplaced
            exclude_columns reports) ->
  exists d full,
    In (PDict d) reports /\ keeps include_unplaced d = true
    /\ build_row genome_id organism_name d = Ok full
    /\ row = project exclude_columns full.
Proof.
  unfold kept_rows. intros H. apply in_flat_map in H as (seq & Hin & H).
  destruct (map_record genome_id organism_name include_unplaced
              exclude_columns seq) as [[row' |] | e] eqn:Hm;
    simpl in H; try contradiction.
  destruct H as [<- | []].
  apply map_record_inv in Hm as (d & full & -> & Hk & Hb & ->).
  eauto 8.
Qed.

Lemma classify_and_map_inv (genome_id : string) (organism_name : pyval)
  (include_unplaced : bool) (exclude_columns : option (list string))
  (reports : list pyval) (rows : list dict) (name : pyval) :
  classify_and_map genome_id organism_name include_unplaced exclude_columns
    reports = Ok (rows, name) ->
  name = organism_name
  /\ (rows = []
      \/ list_sort sort_key
           (kept_rows genome_id organism_name include_unplaced
              exclude_columns reports) = Ok rows).
Proof.
  unfold classify_and_map. intros H.
  destruct (map_records genome_id organism_name include_unplaced
              exclude_columns reports []) as [td | e] eqn:Hm; simpl in H.
  - apply map_records_kept_rows in Hm. simpl in Hm. subst td.
    destruct (list_sort sort_key _) as [s | e] eqn:Hs.
    + injection H as <- <-. auto.
    + destruct (caught e); [| discriminate H]. injection H as <- <-. auto.
  - destruct (caught e); [| discriminate H]. injection H as <- <-. auto.
Qed.

Lemma fetch_chromosome_table_inv (genome_id : string)
  (include_unplaced : bool) (exclude_columns : option (list string))
  (net : script) (dataset : response) (rows : list dict) (name : pyval) :
  fetch_chromosome_table genome_id include_unplaced exclude_columns net
    dataset = Some (Ok (rows, name)) ->
  (rows = [] /\ name = PStr "Unknown")
  \/ exists reports,
      fetch_all_sequence_reports net = Some (Ok reports)
      /\ reports <> []
      /\ classify_and_map genome_id (organism_of dataset) include_unplaced
           exclude_columns reports = Ok (rows, name).
Proof.
  unfold fetch_chromosome_table.
  destruct (fetch_all_sequence_reports net) as [[[| seq reports] | e] |];
    intros H; try discriminate H.
  - injection H as <- <-. now left.
  - injection H as H. right. exists (seq :: reports).
    repeat split; [discriminate | exact H].
  - injection H as <- <-. now left.
Qed.

(** Every row of a returned table is the projected row of a record that the
    inclusion rule keeps, built with the returned organism name. *)
Lemma returned_rows_origin (genome_id : string) (include_unplaced : bool)
  (exclude_columns : option (list string)) (net : script)
  (dataset : response) (rows : list dict) (name : pyval) :
  fetch_chromosome_table genome_id include_unplaced exclude_columns net
    dataset = Some (Ok (rows, name)) ->
  Forall
    (fun row =>
       exists d full,
         keeps include_unplaced d = true
         /\ build_row genome_id name d = Ok full
         /\ row = project exclude_columns full)
    rows.
Proof.
  intros H.
  apply fetch_chromosome_table_inv in H
    as [[-> _] | (reports & _ & _ & H)]; [constructor |].
  apply classify_and_map_inv in H as [-> [-> | Hs]]; [constructor |].
  apply Forall_forall. intros row Hin.
  apply (Permutation_in row
           (Permutation_sym
              (list_sort_perm sort_key sort_key_shape _ _ Hs))) in Hin.
  apply kept_rows_origin in Hin as (d & full & _ & Hk & Hb & ->).
  eauto 6.
Qed.

Lemma project_keys (exclude_columns : option (list string)) (row : dict) :
  map fst (project exclude_columns row)
  = filter (fun k => negb (excluded exclude_columns k)) (map fst row).
Proof.
  unfold project. destruct (exclude_active exclude_columns) eqn:Ha.
  - induction row as [| [k v] row IH]; simpl; [reflexivity |].
    destruct (excluded exclude_columns k); simpl; now rewrite IH.
  - assert (Hno : forall k, excluded exclude_columns k = false)
      by (destruct exclude_columns as [[| c l] |];
          try discriminate Ha; reflexivity).
    induction row as [| [k v] row IH]; simpl; [reflexivity |].
    rewrite Hno. simpl. now rewrite <- IH.
Qed.

Lemma sample_fetch :
  fetch_chromosome_table "GCA_1" false None sample_script sample_dataset
  = Some (Ok ([[("GenomeID", PStr "GCA_1"); ("Taxon", PStr "Homo sapiens");
                ("Chromosome", PStr "1"); ("GenBank", PStr "N/A");
                ("RefSeq", PStr "NC_000001.11"); ("Size (bp)", PInt 0);
                ("GC content (%)", PNone)];
               [("GenomeID", PStr "GCA_1"); ("Taxon", PStr "Homo sapiens");
                ("Chromosome", PStr "2"); ("GenBank", PStr "CM000002.1");
                ("RefSeq", PStr "n/a"); ("Size (bp)", PInt 242193529);
                ("GC content (%)", PInt 40)]],
              PStr "Homo sapiens")).
Proof. vm_compute. reflexivity. Defined.

Lemma returned_rows_keys (genome_id : string)
  (include_unplaced : bool) (exclude_columns : option (list string))
  (net : script) (dataset : response) (rows : list dict) (name : pyval) :
  fetch_chromosome_table genome_id include_unplaced exclude_columns net
    dataset = Some (Ok (rows, name)) ->
  Forall (fun row => map fst row = projected_schema exclude_columns) rows.
Proof.
  intros H. apply returned_rows_origin in H.
  eapply Forall_impl; [| exact H].
  intros row (d & full & _ & Hb & ->).
  apply build_row_fields in Hb as (gc & _ & ->).
  now rewrite project_keys.
Qed.

(** X1. Every row of a returned table has exactly the columns of the
    schema that are not excluded, in the order of the schema. *)
Theorem rows_have_projected_schema (genome_id : string)
  (include_unplaced : bool) (exclude_columns : option (list string))
  (net : script) (dataset : response) (rows : list dict) (name : pyval) :
  fetch_chromosome_table genome_id include_unplaced exclude_columns net
    dataset = Some (Ok (rows, name)) ->
  Forall (fun row => map fst row = projected_schema exclude_columns) rows.
Proof. apply returned_rows_keys. Qed.

Lemma rows_have_projected_schema_witness :
  Forall (fun row => map fst row = projected_schema None)
    [[("GenomeID", PStr "GCA_1"); ("Taxon", PStr "Homo sapiens");
      ("Chromosome", PStr "1"); ("GenBank", PStr "N/A");
      ("RefSeq", PStr "NC_000001.11"); ("Size (bp)", PInt 0);
      ("GC content (%)", PNone)];
     [("GenomeID", PStr "GCA_1"); ("Taxon", PStr "Homo sapiens");
      ("Chromosome", PStr "2"); ("GenBank", PStr "CM000002.1");
      ("RefSeq", PStr "n/a"); ("Size (bp)", PInt 242193529);
      ("GC content (%)", PInt 40)]].
Proof.
  exact (rows_have_projected_schema "GCA_1" false None sample_script
           sample_dataset _ _ sample_fetch).
Defined.

(** X2. In every row of a returned table the GenomeID column is the
    requested identifier and the Taxon column is the organism name returned
    with the table (each unless the column is excluded). *)
Theorem rows_carry_genome_and_taxon (genome_id : string)
  (include_unplaced : bool) (exclude_columns : option (list string))
  (net : script) (dataset : response) (rows : list dict) (name : pyval) :
  fetch_chromosome_table genome_id include_unplaced exclude_columns net
    dataset = Some (Ok (rows, name)) ->
  Forall
    (fun row =>
       dict_lookup "GenomeID" row
       = (if excluded exclude_columns "GenomeID" then None
          else Some (PStr genome_id))
       /\ dict_lookup "Taxon" row
          = (if excluded exclude_columns "Taxon" then None else Some name))
    rows.
Proof.
  intros H. apply returned_rows_origin in H.
  eapply Forall_impl; [| exact H].
  intros row (d & full & _ & Hb & ->).
  apply build_row_fields in Hb as (gc & _ & ->).
  rewrite !project_lookup. split.
  - destruct (excluded exclude_columns "GenomeID"); reflexivity.
  - destruct (excluded exclude_columns "Taxon"); reflexivity.
Qed.

Lemma rows_carry_genome_and_taxon_witness :
  Forall
    (fun row =>
       dict_lookup "GenomeID" row = Some (PStr "GCA_1")
       /\ dict_lookup "Taxon" row = Some (PStr "Homo sapiens"))
    [[("GenomeID", PStr "GCA_1"); ("Taxon", PStr "Homo sapiens");
      ("Chromosome", PStr "1"); ("GenBank", PStr "N/A");
      ("RefSeq", PStr "NC_000001.11"); ("Size (bp)", PInt 0);
      ("GC content (%)", PNone)];
     [("GenomeID", PStr "GCA_1"); ("Taxon", PStr "Homo sapiens");
      ("Chromosome", PStr "2"); ("GenBank", PStr "CM000002.1");
      ("RefSeq", PStr "n/a"); ("Size (bp)", PInt 242193529);
      ("GC content (%)", PInt 40)]].
Proof.
  exact (rows_carry_genome_and_taxon "GCA_1" false None sample_script
           sample_dataset _ _ sample_fetch).
Defined.

Lemma sorted_rows_le (s : list (key * dict)) :
  decorated sort_key s -> sorted s -> StronglySorted row_le (map snd s).
Proof.
  intros Hd Hs. induction Hs as [| p s Hs IH Hp]; simpl; [constructor |].
  inversion Hd as [| ? ? Hkp Hd']; subst.
  constructor; [now apply IH |].
  apply Forall_forall. intros row Hin.
  apply in_map_iff in Hin as (q & <- & Hq).
  pose proof (proj1 (Forall_forall _ _) Hp q Hq) as Hle.
  pose proof (proj1 (Forall_forall _ _) Hd' q Hq) as Hkq.
  exists (fst p), (fst q). repeat split; auto.
  rewrite (key_shape_lt (fst q) (fst p)
             (sort_key_shape _ _ Hkq) (sort_key_shape _ _ Hkp)).
  unfold entry_le, key_le in Hle. now rewrite Hle.
Qed.

(** X3. A returned table is in the order of the comparator: no row is
    below, by its sort key, a row that comes before it. *)
Theorem returned_table_sorted (genome_id : string)
  (include_unplaced : bool) (exclude_columns : option (list string))
  (net : script) (dataset : response) (rows : list dict) (name : pyval) :
  fetch_chromosome_table genome_id include_unplaced exclude_columns net
    dataset = Some (Ok (rows, name)) ->
  StronglySorted row_le rows.
Proof.
  intros H.
  apply fetch_chromosome_table_inv in H
    as [[-> _] | (reports & _ & _ & H)]; [constructor |].
  apply classify_and_map_inv in H as [_ [-> | Hs]]; [constructor |].
  destruct (list_sort_inv sort_key sort_key_shape _ _ Hs)
    as (kl & s & _ & _ & -> & Hdec & Hsorted & _).
  now apply sorted_rows_le.
Qed.

Lemma returned_table_sorted_witness :
  StronglySorted row_le
    [[("GenomeID", PStr "GCA_1"); ("Taxon", PStr "Homo sapiens");
      ("Chromosome", PStr "1"); ("GenBank", PStr "N/A");
      ("RefSeq", PStr "NC_000001.11"); ("Size (bp)", PInt 0);
      ("GC content (%)", PNone)];
     [("GenomeID", PStr "GCA_1"); ("Taxon", PStr "Homo sapiens");
      ("Chromosome", PStr "2"); ("GenBank", PStr "CM000002.1");
      ("RefSeq", PStr "n/a"); ("Size (bp)", PInt 242193529);
      ("GC content (%)", PInt 40)]].
Proof.
  exact (returned_table_sorted "GCA_1" false None sample_script
           sample_dataset _ _ sample_fetch).
Defined.

(** ** Which inputs give a table, and which exceptions escape *)















(** ** A malformed page *)

Lemma read_page_malformed (data : pyval) (reports : list pyval) :
  malformed_page data = true ->
  exists e, read_page data reports = Raise e
            /\ (e = AttributeError \/ e = TypeError).
Proof.
  unfold malformed_page, read_page, page_items.
  destruct data; simpl; intros H; eauto.
  destruct (dict_get d "reports" (PList [])); simpl in *;
    try discriminate H; eauto.
Qed.

(** X6. A page whose body is not an object, or whose ["reports"] cannot be
    iterated, makes the paginated fetch raise ([AttributeError] or
    [TypeError]), and [fetch_chromosome_table] then returns the empty table
    with the name "Unknown": unlike after a failed request, the reports of
    the pages read before are lost. *)
Theorem malformed_page_discards_all (pages : list dict)
  (itemss : list (list pyval)) (data : pyval) (rest : script)
  (genome_id : string) (include_unplaced : bool)
  (exclude_columns : option (list string)) (dataset : response) :
  Forall2 continued_page pages itemss ->
  malformed_page data = true ->
  (exists e,
      fetch_all_sequence_reports (map body pages ++ Body data :: rest)
      = Some (Raise e)
      /\ (e = AttributeError \/ e = TypeError))
  /\ fetch_chromosome_table genome_id include_unplaced exclude_columns
       (map body pages ++ Body data :: rest) dataset
     = Some (Ok ([], PStr "Unknown")).
Proof.
  intros Hp Hbad.
  assert (H : exists e,
             fetch_all_sequence_reports
               (map body pages ++ Body data :: rest) = Some (Raise e)
             /\ (e = AttributeError \/ e = TypeError)).
  { unfold fetch_all_sequence_reports.
    rewrite (fetch_pages_continued pages itemss Hp). simpl.
    destruct (read_page_malformed data (List.concat itemss) Hbad)
      as (e & -> & He).
    eauto. }
  split; [exact H |].
  destruct H as (e & H & _). unfold fetch_chromosome_table.
  now rewrite H.
Qed.

Lemma malformed_page_discards_all_witness :
  fetch_chromosome_table "GCA_1" false None
    [body [("reports", PList sample_reports);
           ("next_page_token", PStr "t1")];
     Body (PDict [("reports", PNone)])]
    sample_dataset
  = Some (Ok ([], PStr "Unknown")).
Proof.
  assert (Hp : Forall2 continued_page
                 [[("reports", PList sample_reports);
                   ("next_page_token", PStr "t1")]]
                 [sample_reports])
    by (repeat constructor).
  exact (proj2 (malformed_page_discards_all _ _
                  (PDict [("reports", PNone)]) [] "GCA_1" false None
                  sample_dataset Hp eq_refl)).
Defined.

(** ** The flag, the organism name and the exclusion list *)

(** X7. The flag for unplaced sequences only adds rows: a record that gives
    a row without the flag gives the same row with it. *)
Theorem include_unplaced_only_adds (genome_id : string)
  (organism_name : pyval) (exclude_columns : option (list string))
  (seq : pyval) (row : dict) :
  map_record genome_id organism_name false exclude_columns seq
  = Ok (Some row) ->
  map_record genome_id organism_name true exclude_columns seq
  = Ok (Some row).
Proof.
  unfold map_record. destruct seq; try discriminate.
  assert (Hk : keeps false d = true -> keeps true d = true).
  { unfold keeps. simpl.
    destruct (py_eq_str
                (dict_get d "assigned_molecule_location_type" (PStr ""))
                "Chromosome"); simpl; [| discriminate].
    reflexivity. }
  destruct (keeps false d); [| discriminate].
  now rewrite (Hk eq_refl).
Qed.

Lemma include_unplaced_only_adds_witness :
  map_record "GCA_1" (PStr "Homo sapiens") true None
    (PDict [("chr_name", PStr "1");
            ("assigned_molecule_location_type", PStr "Chromosome")])
  = Ok (Some [("GenomeID", PStr "GCA_1"); ("Taxon", PStr "Homo sapiens");
              ("Chromosome", PStr "1"); ("GenBank", PStr "N/A");
              ("RefSeq", PStr "n/a"); ("Size (bp)", PInt 0);
              ("GC content (%)", PNone)]).
Proof.
  apply include_unplaced_only_adds. reflexivity.
Defined.

Lemma dict_lookup_set_other (k k' : string) (v : pyval) (d : dict) :
  k' <> k -> dict_lookup k' (dict_set k v d) = dict_lookup k' d.
Proof.
  intros Hne. induction d as [| [k0 v0] d IH]; simpl; [reflexivity |].
  destruct (String.eqb_spec k0 k) as [-> | Hk]; simpl.
  - apply String.eqb_neq in Hne. rewrite String.eqb_sym in Hne.
    now rewrite Hne.
  - now rewrite IH.
Qed.

Lemma filter_dict_set (p : string -> bool) (k : string) (v : pyval)
  (d : dict) :
  filter (fun kv => p (fst kv)) (dict_set k v d)
  = dict_set k v (filter (fun kv => p (fst kv)) d).
Proof.
  induction d as [| [k0 v0] d IH]; simpl; [reflexivity |].
  destruct (String.eqb_spec k0 k) as [-> | Hk]; simpl.
  - destruct (p k) eqn:Hp; simpl.
    + now rewrite String.eqb_refl.
    + clear IH. induction d as [| [k1 v1] d IH]; simpl; [reflexivity |].
      destruct (p k1) eqn:Hp1; simpl; [| exact IH].
      destruct (String.eqb_spec k1 k) as [-> | Hk1]; [congruence |].
      now rewrite <- IH.
  - destruct (p k0); simpl; [| exact IH].
    apply String.eqb_neq in Hk. now rewrite Hk, IH.
Qed.

Lemma project_dict_set (exclude_columns : option (list string))
  (k : string) (v : pyval) (row : dict) :
  project exclude_columns (dict_set k v row)
  = dict_set k v (project exclude_columns row).
Proof.
  unfold project. destruct (exclude_active exclude_columns);
    [| reflexivity].
  apply (filter_dict_set (fun k => negb (excluded exclude_columns k))).
Qed.

Lemma sort_key_set_taxon (v : pyval) (row : dict) :
  sort_key (dict_set "Taxon" v row) = sort_key row.
Proof.
  unfold sort_key, dict_index.
  now rewrite dict_lookup_set_other by discriminate.
Qed.

Lemma map_record_taxon (genome_id : string) (name1 name2 : pyval)
  (include_unplaced : bool) (exclude_columns : option (list string))
  (seq : pyval) :
  map_record genome_id name2 include_unplaced exclude_columns seq
  = res_map (option_map (dict_set "Taxon" name2))
      (map_record genome_id name1 include_unplaced exclude_columns seq).
Proof.
  unfold map_record. destruct seq; try reflexivity.
  destruct (keeps include_unplaced d); [| reflexivity].
  unfold build_row. destruct (gc_field d); simpl; [| reflexivity].
  now rewrite <- project_dict_set.
Qed.

Lemma map_records_taxon (genome_id : string) (name1 name2 : pyval)
  (include_unplaced : bool) (exclude_columns : option (list string))
  (reports : list pyval) :
  forall acc,
    map_records genome_id name2 include_unplaced exclude_columns reports
      (map (dict_set "Taxon" name2) acc)
    = res_map (map (dict_set "Taxon" name2))
        (map_records genome_id name1 include_unplaced exclude_columns
           reports acc).
Proof.
  induction reports as [| seq rest IH]; simpl; intros acc; [reflexivity |].
  rewrite (map_record_taxon genome_id name1 name2).
  destruct (map_record genome_id name1 include_unplaced exclude_columns
              seq) as [[row |] | e]; simpl.
  - rewrite <- IH. now rewrite map_app.
  - apply IH.
  - reflexivity.
Qed.

(** X8. The organism name has no part in the selection and the order of
    the rows: with another name the run gives the same outcome, the value
    of the Taxon column and the returned name apart. A failed organism
    lookup so changes nothing but the Taxon column. *)
Theorem organism_name_frame (genome_id : string) (name1 name2 : pyval)
  (include_unplaced : bool) (exclude_columns : option (list string))
  (reports : list pyval) :
  classify_and_map genome_id name2 include_unplaced exclude_columns reports
  = res_map (fun r => (map (dict_set "Taxon" name2) (fst r), name2))
      (classify_and_map genome_id name1 include_unplaced exclude_columns
         reports).
Proof.
  unfold classify_and_map.
  pose proof (map_records_taxon genome_id name1 name2 include_unplaced
                exclude_columns reports []) as Hm.
  simpl in Hm. rewrite Hm.
  destruct (map_records genome_id name1 include_unplaced exclude_columns
              reports []) as [td | e]; simpl.
  - rewrite (list_sort_map (dict_set "Taxon" name2) sort_key sort_key
               (sort_key_set_taxon name2)).
    destruct (list_sort sort_key td) as [s | e]; simpl; [reflexivity |].
    destruct (caught e); reflexivity.
  - destruct (caught e); reflexivity.
Qed.

Lemma classified_rows_origin (genome_id : string) (organism_name : pyval)
  (include_unplaced : bool) (exclude_columns : option (list string))
  (reports : list pyval) (rows : list dict) (name : pyval) :
  classify_and_map genome_id organism_name include_unplaced exclude_columns
    reports = Ok (rows, name) ->
  Forall
    (fun row =>
       exists d full,
         In (PDict d) reports /\ keeps include_unplaced d = true
         /\ build_row genome_id organism_name d = Ok full
         /\ row = project exclude_columns full)
    rows.
Proof.
  intros H.
  apply classify_and_map_inv in H as [_ [-> | Hs]]; [constructor |].
  apply Forall_forall. intros row Hin.
  apply (Permutation_in row
           (Permutation_sym
              (list_sort_perm sort_key sort_key_shape _ _ Hs))) in Hin.
  now apply kept_rows_origin in Hin.
Qed.

Lemma project_unexcluded (exclude_columns : option (list string))
  (row : dict) :
  Forall (fun k => excluded exclude_columns k = false) (map fst row) ->
  project exclude_columns row = row.
Proof.
  unfold project. destruct (exclude_active exclude_columns);
    [| reflexivity].
  induction row as [| [k v] row IH]; simpl; intros H; [reflexivity |].
  inversion H as [| ? ? Hk Hrest]; subst. simpl in Hk. rewrite Hk. simpl.
  now rewrite IH.
Qed.

(** X9. For any exclusion list that leaves the Chromosome column, the run
    gives the rows of the run without exclusion, in the same order, each
    reduced to the columns that are not excluded: an excluded column is
    absent, every other column keeps its value, and the columns keep their
    order. The outcome on an error is the same in both runs. *)
Theorem projection_frame (genome_id : string) (organism_name : pyval)
  (include_unplaced : bool) (exclude_columns : option (list string))
  (reports : list pyval) :
  excluded exclude_columns "Chromosome" = false ->
  classify_and_map genome_id organism_name include_unplaced exclude_columns
    reports
  = res_map (fun r => (map (project exclude_columns) (fst r), snd r))
      (classify_and_map genome_id organism_name include_unplaced None
         reports)
  /\ (forall row k,
         dict_lookup k (project exclude_columns row)
         = if excluded exclude_columns k then None else dict_lookup k row)
  /\ (forall row,
         map fst (project exclude_columns row)
         = filter (fun k => negb (excluded exclude_columns k))
             (map fst row)).
Proof.
  intros Hex. repeat split.
  - now apply classify_and_map_project.
  - intros row k. apply project_lookup.
  - apply project_keys.
Qed.

Lemma projection_frame_witness :
  classify_and_map "GCA_1" (PStr "Homo sapiens") false
    (Some ["GenBank"; "GC content (%)"]) sample_reports
  = res_map
      (fun r =>
         (map (project (Some ["GenBank"; "GC content (%)"])) (fst r),
          snd r))
      (classify_and_map "GCA_1" (PStr "Homo sapiens") false None
         sample_reports).
Proof.
  exact (proj1 (projection_frame "GCA_1" (PStr "Homo sapiens") false
                  (Some ["GenBank"; "GC content (%)"]) sample_reports
                  eq_refl)).
Defined.

(** X10. Names in the exclusion list that are not columns of the schema
    are ignored: when no column of the schema is excluded, the run gives
    what it gives without an exclusion list. *)
Theorem unknown_exclusions_ignored (genome_id : string)
  (organism_name : pyval) (include_unplaced : bool)
  (exclude_columns : option (list string)) (reports : list pyval) :
  Forall (fun k => excluded exclude_columns k = false) schema ->
  classify_and_map genome_id organism_name include_unplaced exclude_columns
    reports
  = classify_and_map genome_id organism_name include_unplaced None reports.
Proof.
  intros Hex.
  assert (Hchr : excluded exclude_columns "Chromosome" = false).
  { apply (proj1 (Forall_forall _ _) Hex). simpl. tauto. }
  rewrite (classify_and_map_project genome_id organism_name
             include_unplaced exclude_columns reports Hchr).
  destruct (classify_and_map genome_id organism_name include_unplaced None
              reports) as [[rows name] | e] eqn:Hc; [| reflexivity].
  simpl. f_equal. f_equal.
  apply classified_rows_origin in Hc.
  induction Hc as [| row rows (d & full & _ & _ & Hb & ->) _ IH];
    [reflexivity |].
  simpl. rewrite IH. f_equal.
  apply build_row_fields in Hb as (gc & _ & ->).
  apply project_unexcluded. exact Hex.
Qed.

Lemma unknown_exclusions_ignored_witness :
  classify_and_map "GCA_1" (PStr "Homo sapiens") false
    (Some ["refseq"; "Size"]) sample_reports
  = classify_and_map "GCA_1" (PStr "Homo sapiens") false None
      sample_reports.
Proof.
  apply unknown_exclusions_ignored. repeat constructor.
Defined.

(** ** The table writer *)









(** ** The batch *)

Lemma records_of_nil (fieldnames : list string) (rows : list dict) :
  records_of fieldnames rows = [] -> rows = [].
Proof. destruct rows; [reflexivity | discriminate]. Qed.





(** ** Stripping and splitting *)

Lemma str_rstrip_idempotent (s : string) :
  str_rstrip (str_rstrip s) = str_rstrip s.
Proof.
  induction s as [| c s IH]; simpl; [reflexivity |].
  destruct (is_py_space c && String.eqb (str_rstrip s) "")%bool eqn:Hc;
    [reflexivity |].
  simpl. rewrite IH. now rewrite Hc.
Qed.

Lemma str_lstrip_head (s : string) :
  str_lstrip s = EmptyString
  \/ exists c t, str_lstrip s = String c t /\ is_py_space c = false.
Proof.
  induction s as [| c s IH]; simpl; [now left |].
  destruct (is_py_space c) eqn:Hc; [exact IH | right; eauto].
Qed.

Lemma str_strip_idempotent (s : string) :
  str_strip (str_strip s) = str_strip s.
Proof.
  unfold str_strip.
  destruct (str_lstrip_head s) as [-> | (c & t & -> & Hc)];
    [reflexivity |].
  assert (Hr : forall u, str_rstrip (String c u) = String c (str_rstrip u))
    by (intros u; simpl; now rewrite Hc).
  rewrite Hr. simpl str_lstrip. rewrite Hc, Hr.
  now rewrite str_rstrip_idempotent.
Qed.

Lemma read_genome_ids_app (l1 l2 : list string) :
  read_genome_ids (l1 ++ l2) = read_genome_ids l1 ++ read_genome_ids l2.
Proof. unfold read_genome_ids. now rewrite filter_app, map_app. Qed.

(** X14. The identifiers a batch processes are the lines of the input
    stripped of the whitespace around them, in the order of the file; none
    is empty and none has whitespace left around it; a blank line changes
    nothing to the run. *)
Theorem blank_lines_are_skipped (l1 l2 : list string) (blank : string)
  (output_file : string) (include_unplaced : bool)
  (exclude_columns : option (list string)) (net : network)
  (fs : filesystem) :
  str_strip blank = EmptyString ->
  process_genome_list (l1 ++ blank :: l2) output_file include_unplaced
    exclude_columns net fs
  = process_genome_list (l1 ++ l2) output_file include_unplaced
      exclude_columns net fs
  /\ Forall (fun genome_id =>
               genome_id <> EmptyString /\ str_strip genome_id = genome_id)
       (read_genome_ids (l1 ++ blank :: l2)).
Proof.
  intros Hb. split.
  - unfold process_genome_list.
    rewrite !read_genome_ids_app.
    change (blank :: l2) with ([blank] ++ l2).
    rewrite read_genome_ids_app. unfold read_genome_ids at 2.
    simpl. rewrite Hb. reflexivity.
  - apply Forall_forall. intros genome_id Hin.
    unfold read_genome_ids in Hin.
    apply in_map_iff in Hin as (line & <- & Hin).
    apply filter_In in Hin as [_ Hne]. split.
    + apply negb_true_iff in Hne. now apply String.eqb_neq.
    + apply str_strip_idempotent.
Qed.

Lemma blank_lines_are_skipped_witness :
  read_genome_ids sample_lines = ["GCA_1"; "GCA_2"]
  /\ Forall (fun genome_id =>
               genome_id <> EmptyString /\ str_strip genome_id = genome_id)
       (read_genome_ids sample_lines).
Proof.
  split; [reflexivity |].
  exact (proj2 (blank_lines_are_skipped
                  [("GCA_1" ++ newline)%string] [" GCA_2"] newline
                  "out.csv" false None sample_network (fun _ => None)
                  eq_refl)).
Defined.

Lemma str_split_nonempty (sep : ascii) (s : string) :
  str_split sep s <> [].
Proof.
  destruct s as [| c s]; simpl; [discriminate |].
  destruct (Ascii.eqb c sep); [discriminate |].
  destruct (str_split sep s); discriminate.
Qed.

(** Splitting a text that has a separator in it gives the pieces of what
    is before it, then the pieces of what is after it. *)
Lemma str_split_app (sep : ascii) (a b : string) :
  str_split sep (a ++ String sep b)%string
  = str_split sep a ++ str_split sep b.
Proof.
  induction a as [| c a IH]; simpl.
  - now rewrite Ascii.eqb_refl.
  - destruct (Ascii.eqb c sep); [now rewrite IH |].
    rewrite IH.
    destruct (str_split sep a) as [| piece pieces] eqn:Ha;
      [now apply str_split_nonempty in Ha |].
    reflexivity.
Qed.

(** X15. Column names to exclude can be given separated by commas or as
    separate values, with the same effect; the names are stripped of the
    whitespace around them, and an exclusion list that is given is never
    empty. *)
Theorem exclude_columns_by_comma_or_value (a b : string)
  (before after : list string) :
  parse_exclude_columns
    (Some (before ++ (a ++ String "," b)%string :: after))
  = parse_exclude_columns (Some (before ++ a :: b :: after))
  /\ (forall values columns,
         parse_exclude_columns values = Some columns ->
         columns <> []
         /\ Forall (fun c => str_strip c = c) columns).
Proof.
  split.
  - unfold parse_exclude_columns.
    assert (H : flat_map
                  (fun col => map str_strip (str_split "," col))
                  (before ++ (a ++ String "," b)%string :: after)
                = flat_map
                    (fun col => map str_strip (str_split "," col))
                    (before ++ a :: b :: after)).
    { rewrite !flat_map_app. f_equal. simpl.
      rewrite str_split_app, map_app. now rewrite <- app_assoc. }
    destruct before as [| v before]; simpl in *; now rewrite H.
  - intros values columns H. unfold parse_exclude_columns in H.
    destruct values as [[| v l] |]; try discriminate H.
    injection H as <-. split.
    + simpl. destruct (str_split "," v) as [| p ps] eqn:Hs;
        [now apply str_split_nonempty in Hs | discriminate].
    + apply Forall_forall. intros c Hin.
      apply (in_flat_map
               (fun col => map str_strip (str_split "," col)) (v :: l))
        in Hin as (col & _ & Hin).
      apply in_map_iff in Hin as (piece & <- & _).
      apply str_strip_idempotent.
Qed.

Lemma exclude_columns_by_comma_or_value_witness :
  parse_exclude_columns (Some ["RefSeq, GenBank"; "Taxon"])
  = Some ["RefSeq"; "GenBank"; "Taxon"].
Proof.
  exact (eq_trans
           (proj1 (exclude_columns_by_comma_or_value "RefSeq" " GenBank"
                     [] ["Taxon"]))
           eq_refl).
Defined.

(** ** The command line *)

(** X16. [main] ends with a usage error exactly when an identifier and an
    input file are both given or both missing, an empty string counting as
    missing; no file is then touched. *)
Theorem main_usage_errors (a : args) (input : string -> list string)
  (net : network) (fs : filesystem) :
  (exists message, main a input net fs = Some (UsageError message))
  <-> given (arg_genome_id a) = given (arg_input_file a).
Proof.
  unfold main.
  destruct (given (arg_genome_id a)), (given (arg_input_file a)); simpl;
    split.
  - eauto.
  - eauto.
  - intros [message H]. exfalso.
    destruct (fetch_chromosome_table _ _ _ _ _)
      as [[[[| row rows] name] | e] |]; try discriminate H.
    destruct (export_to_csv _ _ _ _ _). discriminate H.
  - discriminate.
  - intros [message H]. exfalso.
    destruct (process_genome_list _ _ _ _ _ _); discriminate H.
  - discriminate.
  - eauto.
  - eauto.
Qed.



(** ** The order of the labels *)
















